(** * host-x509-certificate-exporter: configuration resolution, the
      collection cycle and the entry point of [main.py], embedded and
      verified.

    The development follows the source file top to bottom:
    - [Py]           the Python builtins the program leans on ([str.lower],
                     [str.split], [int], truthiness, insertion-ordered
                     dicts, the two anchored regular expressions);
    - [dict_get], [AppConfig]
                     the resolver: defaults, the configuration document,
                     hosts and labels found in the environment;
    - [Sink]         the part of [prometheus_client] the program talks to
                     (labelled gauges, [labels] with keyword arguments, [set]);
    - [X509], [World], [Process]
                     certificates, what a cycle observes of the network and
                     of the clock, and what the entry point and the loop ask
                     of the operating system (the configuration file, the
                     listening socket, the sleep);
    - [X509Metrics]  the collector: the label schema, [fetch], the metrics
                     loop;
    - [main]         the entry point;
    - [Spec], [Scenario]
                     the vocabulary of the specification and a small
                     deployment to run the definitions on.
    The facts and the theorems come after the definitions.

    Strings are ASCII [string]s: the case-insensitive regular expressions and
    [str.lower] are modelled on the ASCII range. Instants are integers
    (microseconds since the epoch); a gauge stores the instant it was given. *)

From Stdlib Require Import ZArith String Ascii List Lia Bool.
From stdpp Require Import base option list strings gmap pretty.

Open Scope string_scope.
Open Scope list_scope.
Open Scope Z_scope.

(* ===================================================================== *)
(** * Exceptions and the result type                                      *)
(* ===================================================================== *)

(** The subclasses of Python's [Exception] that the program can meet. *)
Inductive exn : Type :=
| ValueError
| TypeError
| KeyError
| OSError
| OverflowError
| YAMLError.

Global Instance exn_eq_dec : EqDecision exn.
Proof. solve_decision. Defined.

(** A computation that returns or raises. *)
Inductive result (A : Type) : Type :=
| Ok (a : A)
| Raise (e : exn).
Arguments Ok {A} a.
Arguments Raise {A} e.

Global Instance result_ret : MRet result := fun A a => Ok a.
Global Instance result_bind : MBind result := fun A B k r =>
  match r with
  | Ok a => k a
  | Raise e => Raise e
  end.

(* ===================================================================== *)
(** * Python builtins                                                     *)
(* ===================================================================== *)

Module Py.

(** Python's truth protocol ([bool(x)], used by [or]). *)
Class Truthy (V : Type) := truthy : V → bool.

Global Instance truthy_string : Truthy string :=
  fun s => match s with EmptyString => false | String _ _ => true end.
Global Instance truthy_Z : Truthy Z := fun z => negb (z =? 0).
Global Instance truthy_list {A} : Truthy (list A) :=
  fun l => match l with [] => false | _ :: _ => true end.
Global Instance truthy_option {A} `{Truthy A} : Truthy (option A) :=
  fun o => match o with None => false | Some a => truthy a end.

(** [a or b] *)
Definition py_or {V} `{Truthy V} (a b : V) : V := if truthy a then a else b.

(** ** Insertion-ordered dictionaries *)

Abbreviation dict V := (list (string * V)) (only parsing).

Definition keys {V} (d : dict V) : list string := d.*1.

(** [key in d] *)
Definition contains {V} (d : dict V) (key : string) : bool :=
  bool_decide (key ∈ keys d).

(** [d[key]], [None] standing for [KeyError]. *)
Fixpoint getitem {V} (d : dict V) (key : string) : option V :=
  match d with
  | [] => None
  | (k, v) :: rest => if decide (k = key) then Some v else getitem rest key
  end.

(** [d[key] = v]: overwrite in place, or append a new entry. *)
Fixpoint setitem {V} (d : dict V) (key : string) (v : V) : dict V :=
  match d with
  | [] => [(key, v)]
  | (k, w) :: rest =>
      if decide (k = key) then (k, v) :: rest else (k, w) :: setitem rest key v
  end.

(** [del d[key]] (used to compare a present-but-empty key with an absent one) *)
Definition delitem {V} (d : dict V) (key : string) : dict V :=
  filter (fun kv => kv.1 ≠ key) d.

(** ** Characters *)

Definition code (c : ascii) : N := N_of_ascii c.

Definition between (lo hi : N) (c : ascii) : bool :=
  ((lo <=? code c) && (code c <=? hi))%N.

Definition is_upper : ascii → bool := between 65 90.
Definition is_lower : ascii → bool := between 97 122.
Definition is_digit : ascii → bool := between 48 57.
Definition is_alpha (c : ascii) : bool := is_upper c || is_lower c.

(** Whitespace as [int] strips it, among the code points below 256: TAB LF
    VT FF CR, SPACE, NEL and NO-BREAK SPACE. *)
Definition is_space (c : ascii) : bool :=
  between 9 13 c || between 32 32 c || between 133 133 c || between 160 160 c.

Definition lower_char (c : ascii) : ascii :=
  if is_upper c then ascii_of_N (code c + 32) else c.

(** [s.lower()] *)
Fixpoint lower (s : string) : string :=
  match s with
  | EmptyString => EmptyString
  | String c r => String (lower_char c) (lower r)
  end.

Fixpoint str_forallb (p : ascii → bool) (s : string) : bool :=
  match s with
  | EmptyString => true
  | String c r => p c && str_forallb p r
  end.

(** ** [s.split(sep)] for a one-character separator *)

Fixpoint split (sep : ascii) (s : string) : list string :=
  match s with
  | EmptyString => [EmptyString]
  | String c r =>
      if decide (c = sep) then EmptyString :: split sep r
      else match split sep r with
           | [] => [String c EmptyString]
           | x :: xs => String c x :: xs
           end
  end.

(** Number of occurrences of a character. *)
Fixpoint count_char (sep : ascii) (s : string) : nat :=
  match s with
  | EmptyString => O
  | String c r => (if decide (c = sep) then 1 else 0)%nat + count_char sep r
  end.

(** ** Anchored, case-insensitive regular expressions

    Both patterns of the program have the shape [^LITERAL(CLASS+)$] and are
    used with [re.IGNORECASE]. [match_literal_ci] consumes the literal,
    [dollar_body] is what [CLASS+] has to consume for [$] to match: [$]
    matches at the end of the subject and also just before a final newline. *)

Fixpoint match_literal_ci (lit s : string) : option string :=
  match lit with
  | EmptyString => Some s
  | String p lit' =>
      match s with
      | EmptyString => None
      | String c s' =>
          if decide (lower_char c = lower_char p) then match_literal_ci lit' s'
          else None
      end
  end.

Definition newline : ascii := ascii_of_N 10.

Fixpoint dollar_body (s : string) : string :=
  match s with
  | EmptyString => EmptyString
  | String c EmptyString => if decide (c = newline) then EmptyString else s
  | String c r => String c (dollar_body r)
  end.

(** [re.match("^" + lit + "(" + cls + "+)$", s, re.IGNORECASE)]: the text of
    group 1 when the subject matches. *)
Definition re_match_group (lit : string) (cls : ascii → bool) (s : string)
  : option string :=
  match match_literal_ci lit s with
  | None => None
  | Some rest =>
      let body := dollar_body rest in
      if truthy body && str_forallb cls body then Some body else None
  end.

(** ** [int(s)] on a decimal literal

    Surrounding whitespace is stripped, one sign is allowed, single underscores
    may separate digits, and a literal of more than 4300 digits is refused.
    [None] stands for [ValueError]. *)

Fixpoint lstrip (s : string) : string :=
  match s with
  | EmptyString => EmptyString
  | String c r => if is_space c then lstrip r else s
  end.

Fixpoint rstrip (s : string) : string :=
  match s with
  | EmptyString => EmptyString
  | String c r =>
      match rstrip r with
      | EmptyString => if is_space c then EmptyString else String c EmptyString
      | r' => String c r'
      end
  end.

Definition strip (s : string) : string := rstrip (lstrip s).

Definition digit_value (c : ascii) : Z := Z.of_N (code c) - 48.

Fixpoint digits (s : string) (after_digit : bool) (acc : Z) : option Z :=
  match s with
  | EmptyString => if after_digit then Some acc else None
  | String c r =>
      if is_digit c then digits r true (10 * acc + digit_value c)
      else if decide (c = "_"%char) then
             if after_digit then digits r false acc else None
      else None
  end.

(** The number of digits of a literal, leading zeros included. *)
Fixpoint digit_count (s : string) : nat :=
  match s with
  | EmptyString => O
  | String c r => ((if is_digit c then 1 else 0) + digit_count r)%nat
  end.

Definition max_str_digits : nat := 4300.

(** The digits of a literal, within the limit on their number. *)
Definition literal (s : string) : option Z :=
  match digits s false 0 with
  | Some z => if bool_decide (digit_count s ≤ max_str_digits)%nat then Some z else None
  | None => None
  end.

Definition int (s : string) : option Z :=
  match strip s with
  | EmptyString => None
  | String c r =>
      if decide (c = "-"%char) then Z.opp <$> literal r
      else if decide (c = "+"%char) then literal r
      else literal (String c r)
  end.

(** [time.sleep(seconds)] for an integer. The length is first converted to
    nanoseconds in 64 bits, which overflows beyond 9223372036 seconds either
    way; a negative length is then refused; what happens to a length that is
    accepted is the platform's affair, [platform]. *)
Definition sleep (platform : result unit) (seconds : Z) : result unit :=
  if bool_decide (9223372036 < Z.abs seconds) then Raise OverflowError
  else if bool_decide (seconds < 0) then Raise ValueError
  else platform.

(** Whether some character of [s] satisfies [p]. *)
Fixpoint str_existsb (p : ascii → bool) (s : string) : bool :=
  match s with
  | EmptyString => false
  | String c r => p c || str_existsb p r
  end.

End Py.

(* ===================================================================== *)
(** * Configuration resolution                                            *)
(* ===================================================================== *)

(** [{"name": ..., "port": ...}] *)
Module Host.
Record t : Type := mk { name : string; port : string }.
Global Instance eq_dec : EqDecision t.
Proof. solve_decision. Defined.
(** The f-string that renders the [host] label: name, a colon, port. *)
Definition render (h : t) : string := name h +:+ ":" +:+ port h.
End Host.

(** [{"name": ..., "value": ...}] *)
Module Label.
Record t : Type := mk { name : string; value : string }.
Global Instance eq_dec : EqDecision t.
Proof. solve_decision. Defined.
End Label.

(** [dict_get(dictionary, key, default_value)] *)
Definition dict_get {V} `{Py.Truthy V}
    (dictionary : Py.dict V) (key : string) (default_value : V) : V :=
  if Py.contains dictionary key then
    match Py.getitem dictionary key with
    | Some v => Py.py_or v default_value
    | None => default_value
    end
  else default_value.

(** [int(s)], raising [ValueError] on a malformed literal. *)
Definition int_of (s : string) : result Z :=
  match Py.int s with
  | Some z => Ok z
  | None => Raise ValueError
  end.

(** The top-level keys of the configuration document the program reads. A key
    that the document does not define is [None]. *)
Record Settings : Type := {
  s_metrics : option (gmap string Z);
  s_hosts : option (list Host.t);
  s_labels : option (list Label.t)
}.

(** What the guarded block of the constructor observes of the file system and
    of the YAML parser. *)
Inductive FileLoad : Type :=
| Absent                          (* os.path.exists(file) is false *)
| LoadRaises (e : exn)            (* opening, decoding or parsing raised e *)
| Loaded (settings : Settings).   (* yaml.safe_load returned a mapping *)

Module AppConfig.

Record t : Type := mk {
  metrics : gmap string Z;
  hosts : list Host.t;
  labels : list Label.t
}.

Definition PORT_VAR : string := "X509_CONFIG_METRICS_PORT".
Definition POLLING_VAR : string := "X509_CONFIG_METRICS_POLLING_INTERVAL".

(** The character class [A-Z0-9_-] under [re.IGNORECASE]. *)
Definition label_class (c : ascii) : bool :=
  Py.is_alpha c || Py.is_digit c
  || bool_decide (c = "_"%char) || bool_decide (c = "-"%char).

(** [^X509_CONFIG_LABEL_([A-Z0-9_-]+)$]: group 1 of the match. *)
Definition label_pattern (env : string) : option string :=
  Py.re_match_group "X509_CONFIG_LABEL_" label_class env.

(** [^X509_CONFIG_HOST_\d{1,}$] *)
Definition host_pattern (env : string) : bool :=
  bool_decide (is_Some (Py.re_match_group "X509_CONFIG_HOST_" Py.is_digit env)).

(** One turn of the loop of [find_labels_from_environment]. *)
Definition label_turn (environ : Py.dict string) (labels : list Label.t)
    (env : string) : list Label.t :=
  match label_pattern env with
  | Some label =>
      match Py.getitem environ env with
      | Some value =>
          labels ++ [ {| Label.name := Py.lower label; Label.value := value |} ]
      | None => labels            (* env is a key of environ: not reached *)
      end
  | None => labels
  end.

Definition find_labels_from_environment (environ : Py.dict string)
  : list Label.t :=
  fold_left (label_turn environ) (Py.keys environ) [].

(** One turn of the loop of [find_hosts_from_environment]. *)
Definition host_turn (environ : Py.dict string) (hosts : list Host.t)
    (env : string) : list Host.t :=
  if host_pattern env then
    match Py.getitem environ env with
    | Some value =>
        let values := Py.split ":" value in
        match values with
        | [v0; v1] => hosts ++ [ {| Host.name := v0; Host.port := v1 |} ]
        | _ => hosts              (* len(values) is not 2 *)
        end
    | None => hosts               (* env is a key of environ: not reached *)
    end
  else hosts.

Definition find_hosts_from_environment (environ : Py.dict string)
  : list Host.t :=
  fold_left (host_turn environ) (Py.keys environ) [].

(** [self.__dict__.update(settings)] *)
Definition update (self : t) (settings : Settings) : t :=
  {| metrics := default (metrics self) (s_metrics settings);
     hosts := default (hosts self) (s_hosts settings);
     labels := default (labels self) (s_labels settings) |}.

(** The [try] block around the file, with its [except yaml.YAMLError]. *)
Definition load (file : FileLoad) (self : t) : result t :=
  let body : result t :=
    match file with
    | Absent => Ok self
    | LoadRaises e => Raise e
    | Loaded settings => Ok (update self settings)
    end in
  match body with
  | Raise YAMLError => Ok self
  | r => r
  end.

(** One turn of the loop that merges the labels of the environment into
    [self.labels]. *)
Definition merge_turn (labels : list Label.t) (label : Label.t)
  : list Label.t :=
  if bool_decide (Label.name label ∉ Label.name <$> labels)
  then labels ++ [label] else labels.

Definition merge_labels (labels env_labels : list Label.t) : list Label.t :=
  fold_left merge_turn env_labels labels.

(** [AppConfig.__init__] *)
Definition init (file : FileLoad) (environ : Py.dict string) : result t :=
  port ← int_of (dict_get environ PORT_VAR "8932");
  pollingInterval ← int_of (dict_get environ POLLING_VAR "43200");
  let self :=
    {| metrics := <["port" := port]> (<["pollingInterval" := pollingInterval]> ∅);
       hosts := []; labels := [] |} in
  self ← load file self;
  let env_hosts := find_hosts_from_environment environ in
  let self :=
    if bool_decide (0 < length env_hosts)%nat
    then {| metrics := metrics self; hosts := hosts self ++ env_hosts;
            labels := labels self |}
    else self in
  let env_labels := find_labels_from_environment environ in
  let self :=
    if bool_decide (0 < length env_labels)%nat
    then {| metrics := metrics self; hosts := hosts self;
            labels := merge_labels (labels self) env_labels |}
    else self in
  Ok self.

End AppConfig.

(* ===================================================================== *)
(** * The metric sink                                                     *)
(* ===================================================================== *)

Module Sink.

(** A label value as the program hands it over; the client library renders
    it with [str]. *)
Inductive value : Type :=
| VStr (s : string)
| VNone
| VInt (z : Z).

Definition str (v : value) : string :=
  match v with
  | VStr s => s
  | VNone => "None"
  | VInt z => pretty z
  end.

(** [Gauge(namespace=..., name=..., labelnames=...)] *)
Record Gauge : Type := {
  fullname : string;
  labelnames : list string
}.

Definition make (namespace name : string) (labelnames : list string) : Gauge :=
  {| fullname := namespace +:+ "_" +:+ name; labelnames := labelnames |}.

(** The two regular expressions the constructor of a metric checks a label
    name against: [^[a-zA-Z_][a-zA-Z0-9_]*$] must match, [^__.*$] must not. *)
Definition METRIC_LABEL_NAME_RE (l : string) : bool :=
  match Py.dollar_body l with
  | EmptyString => false
  | String c r =>
      (Py.is_alpha c || bool_decide (c = "_"%char))
      && Py.str_forallb
           (fun c => Py.is_alpha c || Py.is_digit c || bool_decide (c = "_"%char)) r
  end.

Definition RESERVED_METRIC_LABEL_NAME_RE (l : string) : bool :=
  match l with
  | String a (String b r) =>
      bool_decide (a = "_"%char) && bool_decide (b = "_"%char)
      && Py.str_forallb (fun c => bool_decide (c ≠ Py.newline)) (Py.dollar_body r)
  | _ => false
  end.

Definition valid_labelname (l : string) : bool :=
  METRIC_LABEL_NAME_RE l && negb (RESERVED_METRIC_LABEL_NAME_RE l).

(** [Gauge(namespace=..., name=..., labelnames=...)] with the validation of
    the label names: [ValueError] at the first name that is not valid. The
    metric names of the program are constants, and valid. *)
Definition Gauge_init (namespace name : string) (labelnames : list string)
  : result Gauge :=
  if forallb valid_labelname labelnames
  then Ok (make namespace name labelnames)
  else Raise ValueError.

(** One [set] on one series of one gauge. *)
Record Sample : Type := {
  metric : string;
  series : list string;
  reading : Z
}.

Global Instance sample_eq_dec : EqDecision Sample.
Proof. solve_decision. Defined.

(** [gauge.labels( **kw )]. The call itself raises [TypeError] when a keyword
    is [self], the name of the method's own first parameter. A gauge without
    label names has no children. The keyword names, sorted, must equal the
    sorted label names of the gauge, that is, be a permutation of them; the
    series is the [str] of the values in the order of the label names. *)
Definition labels (g : Gauge) (kw : Py.dict value) : result (list string) :=
  if bool_decide ("self" ∈ Py.keys kw) then Raise TypeError
  else if bool_decide (labelnames g = []) then Raise ValueError
  else if bool_decide (Py.keys kw ≡ₚ labelnames g)
  then Ok ((fun l => from_option str "" (Py.getitem kw l)) <$> labelnames g)
  else Raise ValueError.

(** The registry as a scrape sees it: the last reading of every series. *)
Definition record (store : gmap (string * list string) Z) (x : Sample)
  : gmap (string * list string) Z :=
  <[(metric x, series x) := reading x]> store.

Definition replay (store : gmap (string * list string) Z) (trace : list Sample)
  : gmap (string * list string) Z :=
  fold_left record trace store.

End Sink.

(* ===================================================================== *)
(** * Computations that write to the sink and may raise                   *)
(* ===================================================================== *)

(** The program never reads a gauge back, so a run is described by the
    samples it wrote, in order, and by how it ended. What was written before
    an exception stays written. *)
Definition M (A : Type) : Type := list Sink.Sample * result A.

Global Instance M_ret : MRet M := fun A a => ([], Ok a).
Global Instance M_bind : MBind M := fun A B k m =>
  match m with
  | (t, Ok a) => let '(t', r) := k a in (t ++ t', r)
  | (t, Raise e) => (t, Raise e)
  end.

Definition lift {A} (r : result A) : M A := ([], r).

Definition emit (x : Sink.Sample) : M unit := ([x], Ok tt).

(** [try: body / except Exception as e: handler e] *)
Definition try_except {A} (body : M A) (handler : exn → M A) : M A :=
  match body with
  | (t, Raise e) => let '(t', r) := handler e in (t ++ t', r)
  | (t, Ok a) => (t, Ok a)
  end.

(** [gauge.labels( **kw ).set(v)] *)
Definition labels_set (g : Sink.Gauge) (kw : Py.dict Sink.value) (v : Z)
  : M unit :=
  series ← lift (Sink.labels g kw);
  emit {| Sink.metric := Sink.fullname g; Sink.series := series;
          Sink.reading := v |}.

(** [gauge.set(v)] on a gauge without labels *)
Definition plain_set (g : Sink.Gauge) (v : Z) : M unit :=
  emit {| Sink.metric := Sink.fullname g; Sink.series := [];
          Sink.reading := v |}.

(* ===================================================================== *)
(** * Certificates and the outside world                                  *)
(* ===================================================================== *)

Module X509.

Inductive NameOID : Type :=
| COUNTRY_NAME
| LOCALITY_NAME
| ORGANIZATION_NAME
| ORGANIZATIONAL_UNIT_NAME
| STATE_OR_PROVINCE_NAME
| COMMON_NAME
| OTHER_NAME (dotted : string).

Global Instance NameOID_eq_dec : EqDecision NameOID.
Proof. solve_decision. Defined.

(** A distinguished name: its attributes in certificate order. *)
Definition Name : Type := list (NameOID * string).

Record Certificate : Type := {
  not_valid_after : Z;
  not_valid_before : Z;
  serial_number : Z;
  issuer : Name;
  subject : Name
}.

Definition get_attributes_for_oid (nameObject : Name) (oid : NameOID)
  : list string :=
  snd <$> filter (fun a => a.1 = oid) nameObject.

End X509.

(** What one cycle observes outside the process. The index is the position
    of the host in the cycle: a host listed twice is asked twice. *)
Record World : Type := {
  get_server_certificate : nat → Host.t → result string;
  load_pem_x509_certificate : string → result X509.Certificate;
  now : nat → Z
}.

(** What the program asks of the operating system besides the network: the
    configuration file behind a path, a listening socket for the metrics
    server, and to sleep after the cycle of a given number (for a length
    that [time.sleep] accepts). *)
Record Process : Type := {
  read_config : string → FileLoad;
  start_http_server : Z → result unit;
  platform_sleep : nat → result unit
}.

(* ===================================================================== *)
(** * The collector                                                       *)
(* ===================================================================== *)

Module X509Metrics.

Record t : Type := mk {
  namespace : string;
  polling_interval_seconds : Z;
  config : AppConfig.t;
  not_valid_after : Sink.Gauge;
  not_valid_before : Sink.Gauge;
  expired : Sink.Gauge;
  host_read_errors : Sink.Gauge;
  read_errors : Sink.Gauge;
  build_info : Sink.Gauge
}.

(** The literal list of label names in the constructor. *)
Definition fixed_labels : list string :=
  [ "host";
    "issuer_C"; "issuer_L"; "issuer_O"; "issuer_OU"; "issuer_ST"; "issuer_CN";
    "serial_number";
    "subject_C"; "subject_L"; "subject_O"; "subject_OU"; "subject_CN";
    "subject_ST" ].

(** [X509Metrics.__init__] *)
Definition init (environ : Py.dict string) (config : AppConfig.t) : M t :=
  let namespace := "x509" in
  polling_interval_seconds ←
    lift (match AppConfig.metrics config !! "pollingInterval" with
          | Some v => Ok v
          | None => Raise KeyError
          end);
  let labels := fixed_labels in
  let labels := labels ++ (Label.name <$> AppConfig.labels config) in
  not_valid_after ← lift (Sink.Gauge_init namespace "cert_not_after" labels);
  not_valid_before ← lift (Sink.Gauge_init namespace "cert_not_before" labels);
  expired ← lift (Sink.Gauge_init namespace "expired" labels);
  host_read_errors ← lift (Sink.Gauge_init namespace "host_read_errors" ["host"]);
  read_errors ← lift (Sink.Gauge_init namespace "read_errors" []);
  build_info ←
    lift (Sink.Gauge_init namespace "build_info"
            ["version"; "ref"; "build_date"; "sha"]);
  let self :=
    {| namespace := namespace;
       polling_interval_seconds := polling_interval_seconds;
       config := config;
       not_valid_after := not_valid_after;
       not_valid_before := not_valid_before;
       expired := expired;
       host_read_errors := host_read_errors;
       read_errors := read_errors;
       build_info := build_info |} in
  let ver := dict_get environ "APP_VERSION" "1.0.0-snapshot" in
  let ref := dict_get environ "APP_BUILD_REF" "unknown" in
  let build_date := dict_get environ "APP_BUILD_DATE" "unknown" in
  let sha := dict_get environ "APP_BUILD_SHA" "unknown" in
  labels_set build_info
    [ ("version", Sink.VStr ver); ("ref", Sink.VStr ref);
      ("build_date", Sink.VStr build_date); ("sha", Sink.VStr sha) ] 1;;
  mret self.

Definition get_oid_attribute (nameObject : X509.Name) (oid : X509.NameOID)
  : Sink.value :=
  if Py.truthy (X509.get_attributes_for_oid nameObject oid)
  then match X509.get_attributes_for_oid nameObject oid with
       | a :: _ => Sink.VStr a
       | [] => Sink.VNone
       end
  else Sink.VNone.

(** The [labels] dictionary of one host: the literal, then the loop that adds
    the custom labels whose name is not yet a key. *)
Definition compose_labels (self : t) (host : Host.t) (x509_cert : X509.Certificate)
  : Py.dict Sink.value :=
  let serial := X509.serial_number x509_cert in
  let issuer := X509.issuer x509_cert in
  let subject := X509.subject x509_cert in
  let labels : Py.dict Sink.value :=
    [ ("host", Sink.VStr (Host.render host));
      ("issuer_C", get_oid_attribute issuer X509.COUNTRY_NAME);
      ("issuer_L", get_oid_attribute issuer X509.LOCALITY_NAME);
      ("issuer_O", get_oid_attribute issuer X509.ORGANIZATION_NAME);
      ("issuer_OU", get_oid_attribute issuer X509.ORGANIZATIONAL_UNIT_NAME);
      ("issuer_ST", get_oid_attribute issuer X509.STATE_OR_PROVINCE_NAME);
      ("issuer_CN", get_oid_attribute issuer X509.COMMON_NAME);
      ("serial_number", Sink.VInt serial);
      ("subject_C", get_oid_attribute subject X509.COUNTRY_NAME);
      ("subject_L", get_oid_attribute subject X509.LOCALITY_NAME);
      ("subject_O", get_oid_attribute subject X509.ORGANIZATION_NAME);
      ("subject_OU", get_oid_attribute subject X509.ORGANIZATIONAL_UNIT_NAME);
      ("subject_CN", get_oid_attribute subject X509.COMMON_NAME);
      ("subject_ST", get_oid_attribute subject X509.STATE_OR_PROVINCE_NAME) ] in
  fold_left
    (fun labels label =>
       if negb (Py.contains labels (Label.name label))
       then Py.setitem labels (Label.name label) (Sink.VStr (Label.value label))
       else labels)
    (AppConfig.labels (config self)) labels.

(** The keyword arguments of the per-host error gauge. *)
Definition host_kw (host : Host.t) : Py.dict Sink.value :=
  [ ("host", Sink.VStr (Host.render host)) ].

(** The body of the [try] statement for the host at position [i]. *)
Definition fetch_host (self : t) (w : World) (i : nat) (host : Host.t)
  : M unit :=
  cert ← lift (get_server_certificate w i host);
  x509_cert ← lift (load_pem_x509_certificate w cert);
  let expiration_date := X509.not_valid_after x509_cert in
  let issued_date := X509.not_valid_before x509_cert in
  let labels := compose_labels self host x509_cert in
  labels_set (not_valid_after self) labels expiration_date;;
  labels_set (not_valid_before self) labels issued_date;;
  labels_set (expired self) labels (Z.b2z (expiration_date <? now w i));;
  labels_set (host_read_errors self) (host_kw host) 0.

(** One turn of the [for] loop: the [try] statement with its handler. *)
Definition poll (self : t) (w : World) (i : nat) (host : Host.t)
    (error_count : Z) : M Z :=
  try_except
    (fetch_host self w i host;; mret error_count)
    (fun e =>
       let error_count := error_count + 1 in
       labels_set (host_read_errors self) (host_kw host) 1;;
       mret error_count).

Fixpoint loop (self : t) (w : World) (i : nat) (hosts : list Host.t)
    (error_count : Z) : M Z :=
  match hosts with
  | [] => mret error_count
  | host :: rest =>
      error_count ← poll self w i host error_count;
      loop self w (S i) rest error_count
  end.

(** [X509Metrics.fetch] *)
Definition fetch (self : t) (w : World) : M unit :=
  let hosts := AppConfig.hosts (config self) in
  let error_count := 0 in
  error_count ← loop self w O hosts error_count;
  plain_set (read_errors self) error_count.

(** [X509Metrics.run_metrics_loop], its first [fuel] turns: a cycle, then
    the sleep. The loop has no exit of its own; [worlds] gives what the cycle
    numbered [cycle] observes. *)
Fixpoint run_metrics_loop (self : t) (os : Process) (worlds : nat → World)
    (cycle fuel : nat) : M unit :=
  match fuel with
  | O => mret tt
  | S fuel =>
      fetch self (worlds cycle);;
      lift (Py.sleep (platform_sleep os cycle) (polling_interval_seconds self));;
      run_metrics_loop self os worlds (S cycle) fuel
  end.

End X509Metrics.

(* ===================================================================== *)
(** * The entry point                                                     *)
(* ===================================================================== *)

(** [config.metrics[key]] *)
Definition metrics_item (config : AppConfig.t) (key : string) : result Z :=
  match AppConfig.metrics config !! key with
  | Some v => Ok v
  | None => Raise KeyError
  end.

(** [main], with the first [fuel] turns of its metrics loop. Signals are
    outside the model. *)
Definition main (os : Process) (environ : Py.dict string)
    (worlds : nat → World) (fuel : nat) : M unit :=
  let config_file :=
    dict_get environ "X509_CONFIG_FILE" "./config/.configuration.yaml" in
  config ← lift (AppConfig.init (read_config os config_file) environ);
  _ ← lift (metrics_item config "port");
  app_metrics ← X509Metrics.init environ config;
  port ← lift (metrics_item config "port");
  lift (start_http_server os port);;
  X509Metrics.run_metrics_loop app_metrics os worlds 0 fuel.

(* ===================================================================== *)
(** * The vocabulary of the specification                                 *)
(* ===================================================================== *)

Module Spec.

(** What the document contributes: nothing when it is absent or when reading
    it raised. *)
Definition declared (file : FileLoad) : option Settings :=
  match file with
  | Loaded settings => Some settings
  | _ => None
  end.

Definition declared_metrics (file : FileLoad) : option (gmap string Z) :=
  declared file ≫= s_metrics.

Definition declared_hosts (file : FileLoad) : list Host.t :=
  default [] (declared file ≫= s_hosts).

Definition declared_labels (file : FileLoad) : list Label.t :=
  default [] (declared file ≫= s_labels).

(** Reading the document ends the start-up: it raised something that is not
    a YAML error. *)
Definition load_fatal (file : FileLoad) : option exn :=
  match file with
  | LoadRaises e => if decide (e = YAMLError) then None else Some e
  | _ => None
  end.

(** The text before, and after, the first separator. *)
Fixpoint before (sep : ascii) (s : string) : string :=
  match s with
  | EmptyString => EmptyString
  | String c r => if decide (c = sep) then EmptyString else String c (before sep r)
  end.

Fixpoint after (sep : ascii) (s : string) : string :=
  match s with
  | EmptyString => EmptyString
  | String c r => if decide (c = sep) then r else after sep r
  end.

(** A host variable that is well formed: its name matches the host pattern
    and its value has exactly one colon. *)
Definition host_variable (kv : string * string) : bool :=
  AppConfig.host_pattern kv.1 && bool_decide (Py.count_char ":" kv.2 = 1%nat).

(** One host for each well-formed host variable, in environment order. *)
Definition env_hosts (environ : Py.dict string) : list Host.t :=
  (fun kv => {| Host.name := before ":" kv.2; Host.port := after ":" kv.2 |})
    <$> filter (fun kv => host_variable kv = true) environ.

(** The six fields of a distinguished name that become labels, and the
    twelve label names they give for issuer and subject. *)
Definition dn_codes : list string := ["C"; "L"; "O"; "OU"; "ST"; "CN"].

Definition dn_fields : list string :=
  ((fun c => "issuer_" +:+ c) <$> dn_codes)
  ++ ((fun c => "subject_" +:+ c) <$> dn_codes).

(** The label schema as the specification words it: [host], the twelve
    issuer and subject fields, the custom label names. *)
Definition label_schema (config : AppConfig.t) : list string :=
  "host" :: dn_fields ++ (Label.name <$> AppConfig.labels config).

(** Two label names that differ at most in case. *)
Definition same_name_ci (a b : string) : Prop := Py.lower a = Py.lower b.

(** Whether the [try] body of the host at position [i] raises. *)
Definition fails (self : X509Metrics.t) (w : World) (i : nat) (host : Host.t)
  : bool :=
  match (X509Metrics.fetch_host self w i host).2 with
  | Raise _ => true
  | Ok _ => false
  end.

(** The number of hosts of a cycle whose fetch fails; [i] is the position of
    the first host of [hosts]. *)
Definition failures (self : X509Metrics.t) (w : World) (i : nat)
    (hosts : list Host.t) : nat :=
  length (filter (fun ih => fails self w ih.1 ih.2 = true)
                 (zip (seq i (length hosts)) hosts)).

(** The sample that sets the per-host error gauge of [host] to [v]. *)
Definition host_flag (self : X509Metrics.t) (host : Host.t) (v : Z)
  : Sink.Sample :=
  {| Sink.metric := Sink.fullname (X509Metrics.host_read_errors self);
     Sink.series := [Host.render host];
     Sink.reading := v |}.

(** The sample that sets the aggregate gauge to [n]. *)
Definition read_errors_sample (self : X509Metrics.t) (n : Z) : Sink.Sample :=
  {| Sink.metric := Sink.fullname (X509Metrics.read_errors self);
     Sink.series := [];
     Sink.reading := n |}.

(** The sample that sets one series of a per-certificate gauge. *)
Definition cert_sample (g : Sink.Gauge) (series : list string) (v : Z)
  : Sink.Sample :=
  {| Sink.metric := Sink.fullname g; Sink.series := series; Sink.reading := v |}.

(** What one turn of the loop writes, and what the turns of a cycle write. *)
Definition turn_trace (self : X509Metrics.t) (w : World) (i : nat)
    (host : Host.t) : list Sink.Sample :=
  (X509Metrics.poll self w i host 0).1.

Fixpoint turns_trace (self : X509Metrics.t) (w : World) (i : nat)
    (hosts : list Host.t) : list Sink.Sample :=
  match hosts with
  | [] => []
  | host :: rest => turn_trace self w i host ++ turns_trace self w (S i) rest
  end.

(** The values of the fourteen fixed labels of a host and its certificate, as
    the sink renders them, in the order of [X509Metrics.fixed_labels]. *)
Definition fixed_values (host : Host.t) (cert : X509.Certificate)
  : list string :=
  let issuer := X509.issuer cert in
  let subject := X509.subject cert in
  Host.render host
  :: (Sink.str <$>
        [ X509Metrics.get_oid_attribute issuer X509.COUNTRY_NAME;
          X509Metrics.get_oid_attribute issuer X509.LOCALITY_NAME;
          X509Metrics.get_oid_attribute issuer X509.ORGANIZATION_NAME;
          X509Metrics.get_oid_attribute issuer X509.ORGANIZATIONAL_UNIT_NAME;
          X509Metrics.get_oid_attribute issuer X509.STATE_OR_PROVINCE_NAME;
          X509Metrics.get_oid_attribute issuer X509.COMMON_NAME;
          Sink.VInt (X509.serial_number cert);
          X509Metrics.get_oid_attribute subject X509.COUNTRY_NAME;
          X509Metrics.get_oid_attribute subject X509.LOCALITY_NAME;
          X509Metrics.get_oid_attribute subject X509.ORGANIZATION_NAME;
          X509Metrics.get_oid_attribute subject X509.ORGANIZATIONAL_UNIT_NAME;
          X509Metrics.get_oid_attribute subject X509.COMMON_NAME;
          X509Metrics.get_oid_attribute subject X509.STATE_OR_PROVINCE_NAME ]).

(** The samples of a trace that belong to one gauge. *)
Definition samples_of (g : Sink.Gauge) (trace : list Sink.Sample)
  : list Sink.Sample :=
  filter (fun x => Sink.metric x = Sink.fullname g) trace.

(** One label for each label variable of the environment, in environment
    order: the captured part of its name, lower-cased, and its value. *)
Definition env_labels (environ : Py.dict string) : list Label.t :=
  omap (fun kv =>
          (fun group => {| Label.name := Py.lower group; Label.value := kv.2 |})
            <$> AppConfig.label_pattern kv.1)
       environ.

(** Two worlds that answer a cycle alike: for every listed host the
    connection answers the same, the parser answers the same on what the
    connection returned, and no certificate passes its expiry in between. *)
Definition same_observations (hosts : list Host.t) (w w' : World) : Prop :=
  ∀ k host,
    hosts !! k = Some host →
    get_server_certificate w k host = get_server_certificate w' k host
    ∧ ∀ pem,
        get_server_certificate w k host = Ok pem →
        load_pem_x509_certificate w pem = load_pem_x509_certificate w' pem
        ∧ ∀ cert,
            load_pem_x509_certificate w pem = Ok cert →
            (X509.not_valid_after cert <? now w k)
            = (X509.not_valid_after cert <? now w' k).

(** What [fuel] consecutive cycles write, from the cycle numbered [cycle]. *)
Fixpoint cycles_trace (self : X509Metrics.t) (worlds : nat → World)
    (cycle fuel : nat) : list Sink.Sample :=
  match fuel with
  | O => []
  | S fuel =>
      (X509Metrics.fetch self (worlds cycle)).1
      ++ cycles_trace self worlds (S cycle) fuel
  end.

(** The path [main] reads its configuration from. *)
Definition config_path (environ : Py.dict string) : string :=
  dict_get environ "X509_CONFIG_FILE" "./config/.configuration.yaml".

(** The process that finds no configuration file and can always listen. *)
Definition bare_process : Process :=
  {| read_config := fun _ => Absent;
     start_http_server := fun _ => Ok tt;
     platform_sleep := fun _ => Ok tt |}.

(** A collector as its constructor builds it. *)
Definition started (self : X509Metrics.t) : Prop :=
  ∃ environ config startup,
    X509Metrics.init environ config = (startup, Ok self).

End Spec.

(* ===================================================================== *)
(** * A small deployment, used to run the definitions                     *)
(* ===================================================================== *)

Module Scenario.

Definition host_a : Host.t := Host.mk "a.example" "443".
Definition host_b : Host.t := Host.mk "b.example" "443".
Definition host_c : Host.t := Host.mk "c.example" "8443".

Definition config : AppConfig.t :=
  {| AppConfig.metrics := <["port" := 8932]> (<["pollingInterval" := 43200]> ∅);
     AppConfig.hosts := [host_a; host_b; host_c];
     AppConfig.labels := [Label.mk "env" "prod"] |}.

(** The collector that [X509Metrics.init] builds for [config]. *)
Definition collector : X509Metrics.t :=
  let labels := X509Metrics.fixed_labels ++ ["env"] in
  {| X509Metrics.namespace := "x509";
     X509Metrics.polling_interval_seconds := 43200;
     X509Metrics.config := config;
     X509Metrics.not_valid_after := Sink.make "x509" "cert_not_after" labels;
     X509Metrics.not_valid_before := Sink.make "x509" "cert_not_before" labels;
     X509Metrics.expired := Sink.make "x509" "expired" labels;
     X509Metrics.host_read_errors := Sink.make "x509" "host_read_errors" ["host"];
     X509Metrics.read_errors := Sink.make "x509" "read_errors" [];
     X509Metrics.build_info :=
       Sink.make "x509" "build_info" ["version"; "ref"; "build_date"; "sha"] |}.

(** A certificate that is valid from instant 1000 to instant 2000. *)
Definition certificate : X509.Certificate :=
  {| X509.not_valid_after := 2000;
     X509.not_valid_before := 1000;
     X509.serial_number := 77;
     X509.issuer := [(X509.COUNTRY_NAME, "US"); (X509.COMMON_NAME, "Example CA")];
     X509.subject := [(X509.COMMON_NAME, "example")] |}.

(** Host b is unreachable, the others present [certificate]; the clock reads
    [clock] at every turn. *)
Definition world (clock : Z) : World :=
  {| get_server_certificate := fun _ host =>
       if decide (host = host_b) then Raise OSError else Ok "PEM";
     load_pem_x509_certificate := fun _ => Ok certificate;
     now := fun _ => clock |}.

(** A configuration whose custom label is named like a fixed label, and the
    collector that [X509Metrics.init] builds for it. *)
Definition clash_config : AppConfig.t :=
  {| AppConfig.metrics := <["port" := 8932]> (<["pollingInterval" := 43200]> ∅);
     AppConfig.hosts := [host_a; host_c];
     AppConfig.labels := [Label.mk "host" "override"] |}.

Definition clash_collector : X509Metrics.t :=
  let labels := X509Metrics.fixed_labels ++ ["host"] in
  {| X509Metrics.namespace := "x509";
     X509Metrics.polling_interval_seconds := 43200;
     X509Metrics.config := clash_config;
     X509Metrics.not_valid_after := Sink.make "x509" "cert_not_after" labels;
     X509Metrics.not_valid_before := Sink.make "x509" "cert_not_before" labels;
     X509Metrics.expired := Sink.make "x509" "expired" labels;
     X509Metrics.host_read_errors := Sink.make "x509" "host_read_errors" ["host"];
     X509Metrics.read_errors := Sink.make "x509" "read_errors" [];
     X509Metrics.build_info :=
       Sink.make "x509" "build_info" ["version"; "ref"; "build_date"; "sha"] |}.

(** Host b listed twice, and a world in which only the first connection of
    a cycle fails. *)
Definition twice_config : AppConfig.t :=
  {| AppConfig.metrics := <["port" := 8932]> (<["pollingInterval" := 43200]> ∅);
     AppConfig.hosts := [host_b; host_b];
     AppConfig.labels := [] |}.

Definition twice_collector : X509Metrics.t :=
  let labels := X509Metrics.fixed_labels in
  {| X509Metrics.namespace := "x509";
     X509Metrics.polling_interval_seconds := 43200;
     X509Metrics.config := twice_config;
     X509Metrics.not_valid_after := Sink.make "x509" "cert_not_after" labels;
     X509Metrics.not_valid_before := Sink.make "x509" "cert_not_before" labels;
     X509Metrics.expired := Sink.make "x509" "expired" labels;
     X509Metrics.host_read_errors := Sink.make "x509" "host_read_errors" ["host"];
     X509Metrics.read_errors := Sink.make "x509" "read_errors" [];
     X509Metrics.build_info :=
       Sink.make "x509" "build_info" ["version"; "ref"; "build_date"; "sha"] |}.

Definition flaky_world : World :=
  {| get_server_certificate := fun i _ =>
       match i with O => Raise OSError | S _ => Ok "PEM" end;
     load_pem_x509_certificate := fun _ => Ok certificate;
     now := fun _ => 1500 |}.

End Scenario.

(* ===================================================================== *)
(** * Facts about the builtins                                            *)
(* ===================================================================== *)

Section dict_facts.
Context {V : Type}.
Implicit Types (d : Py.dict V) (k key : string) (v : V).

Lemma getitem_None d key : Py.getitem d key = None ↔ key ∉ Py.keys d.
Proof.
  induction d as [|[k v] d IH]; simpl.
  - split; [intros _ | reflexivity]. apply not_elem_of_nil.
  - case_decide as Hk.
    + subst k. split; [done | intros Hn; exfalso; apply Hn, list_elem_of_here].
    + rewrite IH, not_elem_of_cons. split; [intros Hn; split; [congruence | exact Hn] | intros [_ Hn]; exact Hn].
Qed.

Lemma getitem_Some_key d key v : Py.getitem d key = Some v → key ∈ Py.keys d.
Proof.
  intros Hg. destruct (decide (key ∈ Py.keys d)) as [|Hn]; [done|].
  apply getitem_None in Hn. congruence.
Qed.

Lemma contains_false d key : Py.contains d key = false ↔ Py.getitem d key = None.
Proof.
  unfold Py.contains. rewrite bool_decide_eq_false. symmetry. apply getitem_None.
Qed.

Lemma contains_true d key : Py.contains d key = true ↔ is_Some (Py.getitem d key).
Proof.
  rewrite <- not_eq_None_Some, <- contains_false.
  destruct (Py.contains d key); naive_solver.
Qed.

Lemma getitem_delitem_eq d key : Py.getitem (Py.delitem d key) key = None.
Proof.
  apply getitem_None. unfold Py.delitem, Py.keys. intros Hin.
  apply list_elem_of_fmap in Hin as [[k v] [-> Hin]].
  apply list_elem_of_filter in Hin as [Hne _]. by apply Hne.
Qed.

Lemma getitem_delitem_ne d key k :
  k ≠ key → Py.getitem (Py.delitem d key) k = Py.getitem d k.
Proof.
  intros Hne. unfold Py.delitem.
  induction d as [|[k' v] d IH]; [done|].
  rewrite filter_cons. simpl. destruct (decide (k' ≠ key)) as [Hk|Hk]; simpl.
  - case_decide; [done | apply IH].
  - apply dec_stable in Hk. subst k'. case_decide; [congruence | apply IH].
Qed.

Lemma keys_delitem d key :
  Py.keys (Py.delitem d key) = filter (fun k => k ≠ key) (Py.keys d).
Proof.
  unfold Py.delitem, Py.keys.
  induction d as [|[k v] d IH]; [done|].
  destruct (decide (k ≠ key)) as [Hk|Hk].
  - rewrite filter_cons_True by done. rewrite !fmap_cons. simpl.
    rewrite filter_cons_True by done. by rewrite IH.
  - rewrite filter_cons_False by done. rewrite !fmap_cons. simpl.
    rewrite filter_cons_False by done. by rewrite IH.
Qed.

(** In a dictionary, whose keys are distinct, every entry is what a lookup
    of its key returns. *)
Lemma getitem_entry d key v :
  NoDup (Py.keys d) → (key, v) ∈ d → Py.getitem d key = Some v.
Proof.
  induction d as [|[k w] d IH]; simpl; intros Hnd Hin.
  - by apply elem_of_nil in Hin.
  - apply NoDup_cons in Hnd as [Hk Hnd].
    apply elem_of_cons in Hin as [Heq|Hin].
    + injection Heq as -> ->. by rewrite decide_True.
    + case_decide as Hkk; [|by apply IH].
      subst k. destruct Hk. apply list_elem_of_fmap. by exists (key, v).
Qed.
End dict_facts.

Section dict_get_facts.
Context {V : Type} `{Py.Truthy V}.
Implicit Types (d : Py.dict V) (key : string) (v default : V).

Lemma dict_get_absent d key default :
  Py.getitem d key = None → dict_get d key default = default.
Proof.
  intros Hg. unfold dict_get. apply contains_false in Hg. by rewrite Hg.
Qed.

Lemma dict_get_present d key v default :
  Py.getitem d key = Some v →
  dict_get d key default = if Py.truthy v then v else default.
Proof.
  intros Hg. unfold dict_get.
  assert (Py.contains d key = true) as -> by (apply contains_true; eauto).
  by rewrite Hg.
Qed.

Lemma dict_get_delitem_ne d key k default :
  k ≠ key → dict_get (Py.delitem d key) k default = dict_get d k default.
Proof.
  intros Hne. unfold dict_get.
  rewrite (getitem_delitem_ne d key k Hne).
  destruct (Py.getitem d k) as [v|] eqn:Hg.
  - assert (Py.contains d k = true) as -> by (apply contains_true; eauto).
    assert (Py.contains (Py.delitem d key) k = true) as ->; [|done].
    apply contains_true. rewrite getitem_delitem_ne; eauto.
  - by destruct (Py.contains _ k), (Py.contains d k).
Qed.
End dict_get_facts.

Section string_facts.
Implicit Types (s : string) (c sep : ascii).

Lemma split_length sep s :
  length (Py.split sep s) = S (Py.count_char sep s).
Proof.
  induction s as [|c r IH]; simpl; [done|].
  case_decide; simpl; [by rewrite IH|].
  destruct (Py.split sep r); simpl in *; congruence.
Qed.

Lemma split_no_sep sep s : Py.count_char sep s = O → Py.split sep s = [s].
Proof.
  induction s as [|c r IH]; simpl; [done|].
  case_decide; simpl; [done|]. intros Hc. by rewrite IH.
Qed.

Lemma split_one_sep sep s :
  Py.count_char sep s = 1%nat →
  Py.split sep s = [Spec.before sep s; Spec.after sep s].
Proof.
  induction s as [|c r IH]; simpl; [done|].
  case_decide; simpl; intros Hc.
  - rewrite split_no_sep by lia. done.
  - by rewrite IH.
Qed.

(** A value splits in two exactly when it has one separator. *)
Lemma split_pair sep s v0 v1 :
  Py.split sep s = [v0; v1] ↔
  Py.count_char sep s = 1%nat ∧ v0 = Spec.before sep s ∧ v1 = Spec.after sep s.
Proof.
  split.
  - intros Hs. pose proof (split_length sep s) as Hl. rewrite Hs in Hl.
    simpl in Hl. assert (Py.count_char sep s = 1%nat) as Hc by lia.
    rewrite (split_one_sep _ _ Hc) in Hs. by injection Hs as <- <-.
  - intros (Hc & -> & ->). by apply split_one_sep.
Qed.

Lemma alpha_not_digit c : Py.is_alpha c = true → Py.is_digit c = false.
Proof.
  unfold Py.is_alpha, Py.is_upper, Py.is_lower, Py.is_digit, Py.between.
  intros Ha. apply andb_false_iff.
  apply orb_true_iff in Ha as [Ha|Ha]; apply andb_true_iff in Ha as [Ha _];
    apply N.leb_le in Ha; right; apply N.leb_gt; lia.
Qed.

Lemma alpha_not_space c : Py.is_alpha c = true → Py.is_space c = false.
Proof.
  unfold Py.is_alpha, Py.is_upper, Py.is_lower, Py.is_space, Py.between.
  repeat match goal with
         | |- context [(?a <=? ?b)%N] => destruct (N.leb_spec a b)
         end; simpl; intros Ha; try done; lia.
Qed.

Lemma alpha_not_punct c :
  Py.is_alpha c = true → c ≠ "_"%char ∧ c ≠ "-"%char ∧ c ≠ "+"%char.
Proof. intros Ha. repeat split; intros ->; discriminate Ha. Qed.

Lemma digits_letter s after_digit acc :
  Py.str_existsb Py.is_alpha s = true → Py.digits s after_digit acc = None.
Proof.
  revert after_digit acc.
  induction s as [|c r IH]; simpl; intros after_digit acc Hex; [done|].
  destruct (Py.is_alpha c) eqn:Ha; simpl in Hex.
  - rewrite (alpha_not_digit c Ha).
    destruct (alpha_not_punct c Ha) as (Hu & _). by rewrite decide_False.
  - destruct (Py.is_digit c); [by apply IH|].
    case_decide; [|done]. destruct after_digit; [by apply IH | done].
Qed.

Lemma lstrip_letter s :
  Py.str_existsb Py.is_alpha s = true →
  Py.str_existsb Py.is_alpha (Py.lstrip s) = true.
Proof.
  induction s as [|c r IH]; simpl; [done|]. intros Hex.
  destruct (Py.is_space c) eqn:Hs; [|done].
  apply IH. destruct (Py.is_alpha c) eqn:Ha; [|done].
  apply alpha_not_space in Ha. congruence.
Qed.

Lemma rstrip_letter s :
  Py.str_existsb Py.is_alpha s = true →
  Py.str_existsb Py.is_alpha (Py.rstrip s) = true.
Proof.
  induction s as [|c r IH]; simpl; [done|]. intros Hex.
  destruct (Py.is_alpha c) eqn:Ha; simpl in Hex.
  - destruct (Py.rstrip r); simpl; [|by rewrite Ha].
    rewrite (alpha_not_space c Ha). simpl. by rewrite Ha.
  - specialize (IH Hex). destruct (Py.rstrip r); simpl in *; [done|].
    rewrite IH. apply orb_true_r.
Qed.

Lemma literal_letter s :
  Py.str_existsb Py.is_alpha s = true → Py.literal s = None.
Proof. intros Hex. unfold Py.literal. by rewrite digits_letter. Qed.

(** [int] rejects every string that holds a letter. *)
Lemma int_letter s :
  Py.str_existsb Py.is_alpha s = true → Py.int s = None.
Proof.
  intros Hex. apply lstrip_letter, rstrip_letter in Hex.
  unfold Py.int, Py.strip. destruct (Py.rstrip (Py.lstrip s)) as [|c r]; [done|].
  simpl in Hex. repeat case_decide; subst; simpl in Hex.
  - by rewrite literal_letter.
  - by rewrite literal_letter.
  - apply literal_letter. by simpl.
Qed.
End string_facts.

(* ===================================================================== *)
(** * Configuration resolution: the constructor of [AppConfig]            *)
(* ===================================================================== *)

Section resolver_facts.
Implicit Types (environ : Py.dict string) (file : FileLoad).

Lemma host_turn_entry environ hosts env value :
  Py.getitem environ env = Some value →
  AppConfig.host_turn environ hosts env =
  hosts ++ (if Spec.host_variable (env, value)
            then [ {| Host.name := Spec.before ":" value;
                      Host.port := Spec.after ":" value |} ]
            else []).
Proof.
  intros Hg. unfold AppConfig.host_turn, Spec.host_variable. simpl.
  destruct (AppConfig.host_pattern env); simpl; [|by rewrite app_nil_r].
  rewrite Hg. simpl.
  pose proof (split_length ":" value) as Hl.
  destruct (Py.split ":" value) as [|v0 [|v1 [|v2 vs]]] eqn:Hs; simpl in Hl.
  - lia.
  - rewrite bool_decide_eq_false_2 by lia. by rewrite app_nil_r.
  - apply split_pair in Hs as (Hc & -> & ->).
    by rewrite bool_decide_eq_true_2.
  - rewrite bool_decide_eq_false_2 by lia. by rewrite app_nil_r.
Qed.

Lemma host_loop_entries environ (d : Py.dict string) hosts :
  (∀ k v, (k, v) ∈ d → Py.getitem environ k = Some v) →
  fold_left (AppConfig.host_turn environ) (Py.keys d) hosts =
  hosts ++ Spec.env_hosts d.
Proof.
  revert hosts. unfold Spec.env_hosts.
  induction d as [|[k v] d IH]; intros hosts Hd; simpl.
  - by rewrite app_nil_r.
  - rewrite (host_turn_entry environ hosts k v)
      by (apply Hd, list_elem_of_here).
    rewrite IH by (intros k' v' Hin; apply Hd; by apply list_elem_of_further).
    rewrite <- app_assoc. f_equal.
    destruct (Spec.host_variable (k, v)) eqn:Hv.
    + by rewrite filter_cons_True.
    + rewrite filter_cons_False; [done|]. congruence.
Qed.

(** The hosts found in the environment are the well-formed host variables,
    in order. *)
Lemma find_hosts_spec environ :
  NoDup (Py.keys environ) →
  AppConfig.find_hosts_from_environment environ = Spec.env_hosts environ.
Proof.
  intros Hnd. unfold AppConfig.find_hosts_from_environment.
  rewrite host_loop_entries; [done|].
  intros k v Hin. by apply getitem_entry.
Qed.

Lemma merge_labels_nil labels : AppConfig.merge_labels labels [] = labels.
Proof. done. Qed.

(** The constructor, once the two numbers are read and the document is
    loaded: the three attributes in closed form. *)
Lemma init_Ok file environ p q :
  int_of (dict_get environ AppConfig.PORT_VAR "8932") = Ok p →
  int_of (dict_get environ AppConfig.POLLING_VAR "43200") = Ok q →
  Spec.load_fatal file = None →
  AppConfig.init file environ =
  Ok {| AppConfig.metrics :=
          default (<["port" := p]> (<["pollingInterval" := q]> ∅))
                  (Spec.declared_metrics file);
        AppConfig.hosts :=
          Spec.declared_hosts file
          ++ AppConfig.find_hosts_from_environment environ;
        AppConfig.labels :=
          AppConfig.merge_labels
            (Spec.declared_labels file)
            (AppConfig.find_labels_from_environment environ) |}.
Proof.
  intros Hp Hq Hf. unfold AppConfig.init. rewrite Hp. simpl. rewrite Hq. simpl.
  set (self0 := AppConfig.mk _ _ _).
  assert (AppConfig.load file self0 =
          Ok {| AppConfig.metrics :=
                  default (AppConfig.metrics self0) (Spec.declared_metrics file);
                AppConfig.hosts := Spec.declared_hosts file;
                AppConfig.labels := Spec.declared_labels file |}) as ->.
  { unfold AppConfig.load, Spec.declared_metrics, Spec.declared_hosts,
      Spec.declared_labels.
    destruct file as [|e|settings]; simpl; [done| |done].
    simpl in Hf. case_decide; [by subst e | done]. }
  simpl.
  destruct (AppConfig.find_hosts_from_environment environ) as [|h hs] eqn:Hh;
    destruct (AppConfig.find_labels_from_environment environ) as [|l ls] eqn:Hl;
    simpl; rewrite ?app_nil_r; try done.
  all: rewrite ?bool_decide_eq_true_2 by (simpl; lia); done.
Qed.

(** The only ways the constructor can raise. *)
Lemma init_Raise file environ e :
  AppConfig.init file environ = Raise e →
  int_of (dict_get environ AppConfig.PORT_VAR "8932") = Raise e
  ∨ int_of (dict_get environ AppConfig.POLLING_VAR "43200") = Raise e
  ∨ Spec.load_fatal file = Some e.
Proof.
  intros Hr.
  destruct (int_of (dict_get environ AppConfig.PORT_VAR "8932")) as [p|e1] eqn:Hp.
  2:{ left. unfold AppConfig.init in Hr. rewrite Hp in Hr. simpl in Hr. congruence. }
  destruct (int_of (dict_get environ AppConfig.POLLING_VAR "43200")) as [q|e2] eqn:Hq.
  2:{ right; left. unfold AppConfig.init in Hr. rewrite Hp in Hr. simpl in Hr.
      rewrite Hq in Hr. simpl in Hr. congruence. }
  right; right.
  destruct (Spec.load_fatal file) as [e'|] eqn:Hf.
  - destruct file as [|e0|settings]; simpl in Hf; try done.
    case_decide as He0; [done|]. injection Hf as <-.
    unfold AppConfig.init in Hr. rewrite Hp in Hr. simpl in Hr.
    rewrite Hq in Hr. simpl in Hr.
    destruct e0; simpl in Hr; congruence.
  - rewrite (init_Ok file environ p q Hp Hq Hf) in Hr. done.
Qed.
End resolver_facts.

Section resolver_claims.
Implicit Types (environ : Py.dict string) (file : FileLoad).

Lemma init_Ok_inv file environ c :
  AppConfig.init file environ = Ok c →
  ∃ p q,
    int_of (dict_get environ AppConfig.PORT_VAR "8932") = Ok p
    ∧ int_of (dict_get environ AppConfig.POLLING_VAR "43200") = Ok q
    ∧ Spec.load_fatal file = None.
Proof.
  intros Hc.
  destruct (int_of (dict_get environ AppConfig.PORT_VAR "8932")) as [p|e1] eqn:Hp.
  2:{ unfold AppConfig.init in Hc. rewrite Hp in Hc. discriminate Hc. }
  destruct (int_of (dict_get environ AppConfig.POLLING_VAR "43200")) as [q|e2] eqn:Hq.
  2:{ unfold AppConfig.init in Hc. rewrite Hp in Hc. simpl in Hc.
      rewrite Hq in Hc. discriminate Hc. }
  exists p, q. repeat split.
  destruct (Spec.load_fatal file) as [e'|] eqn:Hf; [|done].
  destruct file as [|e0|settings]; simpl in Hf; try done.
  case_decide as He0; [done|].
  unfold AppConfig.init in Hc. rewrite Hp in Hc. simpl in Hc.
  rewrite Hq in Hc. simpl in Hc. destruct e0; simpl in Hc; congruence.
Qed.


(** A loop that leaves its state alone on the elements it skips may as well
    run on the elements it does not skip. *)
Lemma fold_left_skip {A B} (f g : A → B → A) (P : B → Prop)
    `{∀ x, Decision (P x)} (l : list B) (a : A) :
  (∀ a x, P x → g a x = f a x) →
  (∀ a x, ¬ P x → f a x = a) →
  fold_left g (filter P l) a = fold_left f l a.
Proof.
  intros Hfg Hskip. revert a.
  induction l as [|x l IH]; intros a; [done|].
  destruct (decide (P x)) as [Hx|Hx].
  - rewrite filter_cons_True by done. simpl. rewrite Hfg by done. apply IH.
  - rewrite filter_cons_False by done. simpl. rewrite Hskip by done. apply IH.
Qed.

Lemma find_hosts_delitem environ key :
  AppConfig.host_pattern key = false →
  AppConfig.find_hosts_from_environment (Py.delitem environ key) =
  AppConfig.find_hosts_from_environment environ.
Proof.
  intros Hk. unfold AppConfig.find_hosts_from_environment.
  rewrite keys_delitem. apply fold_left_skip.
  - intros hosts env Hne. unfold AppConfig.host_turn.
    by rewrite getitem_delitem_ne.
  - intros hosts env Heq. apply dec_stable in Heq. subst env.
    unfold AppConfig.host_turn. by rewrite Hk.
Qed.

Lemma find_labels_delitem environ key :
  AppConfig.label_pattern key = None →
  AppConfig.find_labels_from_environment (Py.delitem environ key) =
  AppConfig.find_labels_from_environment environ.
Proof.
  intros Hk. unfold AppConfig.find_labels_from_environment.
  rewrite keys_delitem. apply fold_left_skip.
  - intros labels env Hne. unfold AppConfig.label_turn.
    by rewrite getitem_delitem_ne.
  - intros labels env Heq. apply dec_stable in Heq. subst env.
    unfold AppConfig.label_turn. by rewrite Hk.
Qed.

(** The constructor depends on the environment through four readings only. *)
Lemma init_ext file environ environ' :
  dict_get environ' AppConfig.PORT_VAR "8932"
    = dict_get environ AppConfig.PORT_VAR "8932" →
  dict_get environ' AppConfig.POLLING_VAR "43200"
    = dict_get environ AppConfig.POLLING_VAR "43200" →
  AppConfig.find_hosts_from_environment environ'
    = AppConfig.find_hosts_from_environment environ →
  AppConfig.find_labels_from_environment environ'
    = AppConfig.find_labels_from_environment environ →
  AppConfig.init file environ' = AppConfig.init file environ.
Proof.
  intros Hp Hq Hh Hl. unfold AppConfig.init. by rewrite Hp, Hq, Hh, Hl.
Qed.

Lemma merge_turn_names labels label :
  NoDup (Label.name <$> labels) →
  NoDup (Label.name <$> AppConfig.merge_turn labels label)
  ∧ ∃ extra, AppConfig.merge_turn labels label = labels ++ extra.
Proof.
  intros Hnd. unfold AppConfig.merge_turn. case_bool_decide as Hin.
  - split; [|by exists [label]].
    rewrite fmap_app. simpl. apply NoDup_app. split; [done|]. split.
    + intros x Hx Hx'. apply list_elem_of_singleton in Hx'. by subst x.
    + apply NoDup_singleton.
  - split; [done|]. exists []. by rewrite app_nil_r.
Qed.

Lemma merge_labels_names labels env_labels :
  NoDup (Label.name <$> labels) →
  NoDup (Label.name <$> AppConfig.merge_labels labels env_labels)
  ∧ ∃ extra, AppConfig.merge_labels labels env_labels = labels ++ extra.
Proof.
  unfold AppConfig.merge_labels. revert labels.
  induction env_labels as [|l ls IH]; intros labels Hnd; simpl.
  - split; [done|]. exists []. by rewrite app_nil_r.
  - destruct (merge_turn_names labels l Hnd) as [Hnd' [extra Hex]].
    destruct (IH _ Hnd') as [Hnd'' [extra' Hex']]. split; [done|].
    exists (extra ++ extra'). by rewrite Hex', Hex, app_assoc.
Qed.
End resolver_claims.

(* ===================================================================== *)
(** * Claims about configuration resolution                               *)
(* ===================================================================== *)

(** C7. The resolved host list is the hosts the document declares followed by
    one host for every environment variable whose name matches the host
    pattern and whose value holds exactly one colon, split at that colon into
    name and port; a value with no colon or several contributes no host, and
    no host variable can make the resolution raise: it raises only where one
    of the two numbers is malformed or reading the document fails. *)
Theorem resolved_hosts_file_then_environment
    (file : FileLoad) (environ : Py.dict string)
    (Hkeys : NoDup (Py.keys environ)) :
  AppConfig.find_hosts_from_environment environ = Spec.env_hosts environ
  ∧ (∀ c, AppConfig.init file environ = Ok c →
          AppConfig.hosts c = Spec.declared_hosts file ++ Spec.env_hosts environ)
  ∧ (∀ p q,
        int_of (dict_get environ AppConfig.PORT_VAR "8932") = Ok p →
        int_of (dict_get environ AppConfig.POLLING_VAR "43200") = Ok q →
        Spec.load_fatal file = None →
        ∃ c, AppConfig.init file environ = Ok c)
  ∧ (∀ e, AppConfig.init file environ = Raise e →
          int_of (dict_get environ AppConfig.PORT_VAR "8932") = Raise e
          ∨ int_of (dict_get environ AppConfig.POLLING_VAR "43200") = Raise e
          ∨ Spec.load_fatal file = Some e).
Proof.
  split; [by apply find_hosts_spec|]. split; [|split].
  - intros c Hc. destruct (init_Ok_inv _ _ _ Hc) as (p & q & Hp & Hq & Hf).
    rewrite (init_Ok _ _ _ _ Hp Hq Hf) in Hc. injection Hc as <-. simpl.
    by rewrite find_hosts_spec.
  - intros p q Hp Hq Hf. rewrite (init_Ok _ _ _ _ Hp Hq Hf). eauto.
  - intros e. apply init_Raise.
Qed.

Lemma resolved_hosts_witness :
  ∃ c,
    AppConfig.init
      (Loaded {| s_metrics := None;
                 s_hosts := Some [Host.mk "a.example" "443"];
                 s_labels := None |})
      [ ("X509_CONFIG_HOST_1", "b.example:8443");
        ("x509_config_host_2", "no-separator");
        ("X509_CONFIG_HOST_3", "c.example:1:2");
        ("HOME", "/root:/home") ] = Ok c
    ∧ AppConfig.hosts c = [Host.mk "a.example" "443"; Host.mk "b.example" "8443"].
Proof.
  assert (NoDup (Py.keys
            [ ("X509_CONFIG_HOST_1", "b.example:8443");
              ("x509_config_host_2", "no-separator");
              ("X509_CONFIG_HOST_3", "c.example:1:2");
              ("HOME", "/root:/home") ])) as Hkeys
    by (apply (bool_decide_unpack _); vm_compute; exact I).
  pose proof (resolved_hosts_file_then_environment
                (Loaded {| s_metrics := None;
                           s_hosts := Some [Host.mk "a.example" "443"];
                           s_labels := None |}) _ Hkeys)
    as (_ & Hhosts & Hreturns & _).
  destruct (Hreturns 8932 43200 eq_refl eq_refl eq_refl) as [c Hc].
  exists c. split; [exact Hc|]. rewrite (Hhosts c Hc). reflexivity.
Defined.






(** C10. A key that [dict_get] finds bound to a falsy value is treated as an
    absent key: the default is returned, exactly as when the key is deleted.
    So a port or polling-interval variable set to the empty string yields the
    built-in default, not an error: the constructor returns what it returns
    with the variable removed from the environment. *)
Theorem dict_get_falsy_is_absent {V : Type} `{Py.Truthy V}
    (dictionary : Py.dict V) (key : string) (v default_value : V)
    (file : FileLoad) (environ : Py.dict string) (var : string)
    (Hbound : Py.getitem dictionary key = Some v)
    (Hfalsy : Py.truthy v = false)
    (Hvar : var = AppConfig.PORT_VAR ∨ var = AppConfig.POLLING_VAR)
    (Hempty : Py.getitem environ var = Some "") :
  dict_get dictionary key default_value = default_value
  ∧ dict_get dictionary key default_value
    = dict_get (Py.delitem dictionary key) key default_value
  ∧ int_of (dict_get environ var "8932") = Ok 8932
  ∧ int_of (dict_get environ var "43200") = Ok 43200
  ∧ AppConfig.init file environ = AppConfig.init file (Py.delitem environ var).
Proof.
  assert (∀ d : V, dict_get dictionary key d = d) as Hdef.
  { intros d. rewrite (dict_get_present _ _ v) by done. by rewrite Hfalsy. }
  assert (∀ d : string, dict_get environ var d = d) as Hdef'.
  { intros d. by rewrite (dict_get_present _ _ "") by done. }
  split; [apply Hdef|]. split.
  { rewrite Hdef. symmetry. apply dict_get_absent, getitem_delitem_eq. }
  rewrite !Hdef'. split; [done|]. split; [done|].
  symmetry. apply init_ext.
  - destruct Hvar as [-> | ->].
    + rewrite Hdef'. apply dict_get_absent, getitem_delitem_eq.
    + by apply dict_get_delitem_ne.
  - destruct Hvar as [-> | ->].
    + by apply dict_get_delitem_ne.
    + rewrite Hdef'. apply dict_get_absent, getitem_delitem_eq.
  - apply find_hosts_delitem. by destruct Hvar as [-> | ->].
  - apply find_labels_delitem. by destruct Hvar as [-> | ->].
Qed.

Lemma dict_get_falsy_is_absent_witness :
  dict_get [("X509_CONFIG_FILE", "")] "X509_CONFIG_FILE" "./config.yaml"
    = "./config.yaml"
  ∧ AppConfig.init Absent [("HOME", "/root"); (AppConfig.PORT_VAR, "")]
    = AppConfig.init Absent [("HOME", "/root")].
Proof.
  pose proof (dict_get_falsy_is_absent
                [("X509_CONFIG_FILE", "")] "X509_CONFIG_FILE" "" "./config.yaml"
                Absent [("HOME", "/root"); (AppConfig.PORT_VAR, "")]
                AppConfig.PORT_VAR eq_refl eq_refl (or_introl eq_refl) eq_refl)
    as (Hd & _ & _ & _ & Hi).
  split; [exact Hd | exact Hi].
Defined.

(** C6, as the program has it. Names are compared exactly, the environment's
    names having been lower-cased first. The labels of the document are kept
    as they are, at the head of the resolved list, and a label of the
    environment is appended only if its name is not there yet: when the names
    the document declares are distinct, so are the resolved names, and a
    resolved label whose name the document declares is the document's own
    label, with the document's value. *)
Theorem labels_merge_exact_names
    (file : FileLoad) (environ : Py.dict string) (c : AppConfig.t)
    (Hinit : AppConfig.init file environ = Ok c)
    (Hfile : NoDup (Label.name <$> Spec.declared_labels file)) :
  NoDup (Label.name <$> AppConfig.labels c)
  ∧ Spec.declared_labels file `prefix_of` AppConfig.labels c
  ∧ (∀ l, l ∈ AppConfig.labels c →
          Label.name l ∈ (Label.name <$> Spec.declared_labels file) →
          l ∈ Spec.declared_labels file).
Proof.
  destruct (init_Ok_inv _ _ _ Hinit) as (p & q & Hp & Hq & Hf).
  rewrite (init_Ok _ _ _ _ Hp Hq Hf) in Hinit. injection Hinit as <-. simpl.
  destruct (merge_labels_names _
              (AppConfig.find_labels_from_environment environ) Hfile)
    as [Hnd [extra Hex]].
  split; [done|]. split; [by exists extra|].
  intros l Hl Hname. rewrite Hex in Hl, Hnd.
  apply elem_of_app in Hl as [Hl|Hl]; [done|].
  rewrite fmap_app in Hnd. apply NoDup_app in Hnd as (_ & Hdisj & _).
  destruct (Hdisj _ Hname). apply list_elem_of_fmap. by exists l.
Qed.

Lemma labels_merge_exact_names_witness :
  ∃ c,
    AppConfig.init
      (Loaded {| s_metrics := None; s_hosts := None;
                 s_labels := Some [Label.mk "env" "from-file"] |})
      [ ("X509_CONFIG_LABEL_ENV", "from-environment");
        ("X509_CONFIG_LABEL_TEAM", "ops") ] = Ok c
    ∧ Label.mk "env" "from-file" ∈ AppConfig.labels c
    ∧ NoDup (Label.name <$> AppConfig.labels c).
Proof.
  destruct (AppConfig.init
              (Loaded {| s_metrics := None; s_hosts := None;
                         s_labels := Some [Label.mk "env" "from-file"] |})
              [ ("X509_CONFIG_LABEL_ENV", "from-environment");
                ("X509_CONFIG_LABEL_TEAM", "ops") ]) as [c|e] eqn:Hc;
    [|vm_compute in Hc; discriminate Hc].
  exists c. split; [reflexivity|].
  assert (NoDup (Label.name <$> Spec.declared_labels
            (Loaded {| s_metrics := None; s_hosts := None;
                       s_labels := Some [Label.mk "env" "from-file"] |})))
    as Hnd by (apply (bool_decide_unpack _); vm_compute; exact I).
  destruct (labels_merge_exact_names _ _ c Hc Hnd) as (Hnames & Hpre & _).
  split; [|exact Hnames].
  destruct Hpre as [extra ->]. apply elem_of_app. left. apply list_elem_of_here.
Defined.

(** C6 as worded fails twice: a label of the document and a label of the
    environment whose names differ only in case are both kept, and so are two
    labels of the document with one name. *)
Lemma labels_claim_counterexample :
  (∃ c,
      AppConfig.init
        (Loaded {| s_metrics := None; s_hosts := None;
                   s_labels := Some [Label.mk "Env" "from-file"] |})
        [ ("X509_CONFIG_LABEL_ENV", "from-environment") ] = Ok c
      ∧ AppConfig.labels c
        = [Label.mk "Env" "from-file"; Label.mk "env" "from-environment"]
      ∧ Spec.same_name_ci "Env" "env")
  ∧ (∃ c,
        AppConfig.init
          (Loaded {| s_metrics := None; s_hosts := None;
                     s_labels := Some [Label.mk "env" "a"; Label.mk "env" "b"] |})
          [] = Ok c
        ∧ AppConfig.labels c = [Label.mk "env" "a"; Label.mk "env" "b"]).
Proof.
  split.
  - eexists. split; [reflexivity|]. split; reflexivity.
  - eexists. split; reflexivity.
Qed.

(* ===================================================================== *)
(** * The collector: what the constructor builds                          *)
(* ===================================================================== *)

Section collector_facts.
Implicit Types (self : X509Metrics.t) (w : World) (host : Host.t).

Lemma dn_fields_eq :
  Spec.dn_fields =
  [ "issuer_C"; "issuer_L"; "issuer_O"; "issuer_OU"; "issuer_ST"; "issuer_CN";
    "subject_C"; "subject_L"; "subject_O"; "subject_OU"; "subject_ST";
    "subject_CN" ].
Proof. reflexivity. Qed.

(** The constructor, case by case: [KeyError] without a polling interval,
    [ValueError] with a label name the client library refuses, nothing being
    written in either case; otherwise the build-info sample is written and
    every field of the collector is known. *)
Lemma init_run environ config :
  X509Metrics.init environ config =
  match AppConfig.metrics config !! "pollingInterval" with
  | None => ([], Raise KeyError)
  | Some interval =>
      if forallb Sink.valid_labelname
           (X509Metrics.fixed_labels ++ (Label.name <$> AppConfig.labels config))
      then
        ( [ {| Sink.metric := "x509_build_info";
               Sink.series :=
                 [ dict_get environ "APP_VERSION" "1.0.0-snapshot";
                   dict_get environ "APP_BUILD_REF" "unknown";
                   dict_get environ "APP_BUILD_DATE" "unknown";
                   dict_get environ "APP_BUILD_SHA" "unknown" ];
               Sink.reading := 1 |} ],
          Ok {| X509Metrics.namespace := "x509";
                X509Metrics.polling_interval_seconds := interval;
                X509Metrics.config := config;
                X509Metrics.not_valid_after :=
                  Sink.make "x509" "cert_not_after"
                    (X509Metrics.fixed_labels
                     ++ (Label.name <$> AppConfig.labels config));
                X509Metrics.not_valid_before :=
                  Sink.make "x509" "cert_not_before"
                    (X509Metrics.fixed_labels
                     ++ (Label.name <$> AppConfig.labels config));
                X509Metrics.expired :=
                  Sink.make "x509" "expired"
                    (X509Metrics.fixed_labels
                     ++ (Label.name <$> AppConfig.labels config));
                X509Metrics.host_read_errors :=
                  Sink.make "x509" "host_read_errors" ["host"];
                X509Metrics.read_errors := Sink.make "x509" "read_errors" [];
                X509Metrics.build_info :=
                  Sink.make "x509" "build_info"
                    ["version"; "ref"; "build_date"; "sha"] |} )
      else ([], Raise ValueError)
  end.
Proof.
  unfold X509Metrics.init.
  destruct (AppConfig.metrics config !! "pollingInterval") as [interval|]; [|done].
  unfold Sink.Gauge_init.
  destruct (forallb Sink.valid_labelname
              (X509Metrics.fixed_labels ++ (Label.name <$> AppConfig.labels config)));
    done.
Qed.

(** The constructor succeeds only with a polling interval, and then every
    field of the collector is known. *)
Lemma init_inv environ config startup self :
  X509Metrics.init environ config = (startup, Ok self) →
  ∃ interval,
    AppConfig.metrics config !! "pollingInterval" = Some interval
    ∧ self =
      {| X509Metrics.namespace := "x509";
         X509Metrics.polling_interval_seconds := interval;
         X509Metrics.config := config;
         X509Metrics.not_valid_after :=
           Sink.make "x509" "cert_not_after"
             (X509Metrics.fixed_labels ++ (Label.name <$> AppConfig.labels config));
         X509Metrics.not_valid_before :=
           Sink.make "x509" "cert_not_before"
             (X509Metrics.fixed_labels ++ (Label.name <$> AppConfig.labels config));
         X509Metrics.expired :=
           Sink.make "x509" "expired"
             (X509Metrics.fixed_labels ++ (Label.name <$> AppConfig.labels config));
         X509Metrics.host_read_errors :=
           Sink.make "x509" "host_read_errors" ["host"];
         X509Metrics.read_errors := Sink.make "x509" "read_errors" [];
         X509Metrics.build_info :=
           Sink.make "x509" "build_info"
             ["version"; "ref"; "build_date"; "sha"] |}.
Proof.
  rewrite init_run.
  destruct (AppConfig.metrics config !! "pollingInterval") as [interval|];
    [|discriminate].
  destruct (forallb _ _); [|discriminate].
  intros Hinit. exists interval. split; [done|]. by injection Hinit as _ <-.
Qed.
End collector_facts.

(* ===================================================================== *)
(** * The collector: one host, one turn, one cycle                        *)
(* ===================================================================== *)

Section cycle_facts.
Implicit Types (self : X509Metrics.t) (w : World) (host : Host.t).

(** What the proofs below use of a collector built by its constructor. *)
Lemma started_gauges self :
  Spec.started self →
  Sink.labelnames (X509Metrics.not_valid_before self)
    = Sink.labelnames (X509Metrics.not_valid_after self)
  ∧ Sink.labelnames (X509Metrics.expired self)
    = Sink.labelnames (X509Metrics.not_valid_after self)
  ∧ Sink.labelnames (X509Metrics.host_read_errors self) = ["host"]
  ∧ Sink.fullname (X509Metrics.not_valid_after self) = "x509_cert_not_after"
  ∧ Sink.fullname (X509Metrics.not_valid_before self) = "x509_cert_not_before"
  ∧ Sink.fullname (X509Metrics.expired self) = "x509_expired"
  ∧ Sink.fullname (X509Metrics.host_read_errors self) = "x509_host_read_errors"
  ∧ Sink.fullname (X509Metrics.read_errors self) = "x509_read_errors".
Proof.
  intros (environ & config & startup & Hinit).
  apply init_inv in Hinit as (interval & _ & ->). by repeat split.
Qed.

Lemma labels_same (g g' : Sink.Gauge) (kw : Py.dict Sink.value) :
  Sink.labelnames g = Sink.labelnames g' → Sink.labels g kw = Sink.labels g' kw.
Proof. intros Hg. unfold Sink.labels. by rewrite Hg. Qed.

(** Setting the per-host error gauge cannot raise. *)
Lemma flag_set self host v :
  Spec.started self →
  labels_set (X509Metrics.host_read_errors self) (X509Metrics.host_kw host) v
  = ([Spec.host_flag self host v], Ok tt).
Proof.
  intros Hs. destruct (started_gauges self Hs) as (_ & _ & Hh & _).
  unfold labels_set, Sink.labels, X509Metrics.host_kw, Spec.host_flag.
  rewrite Hh. done.
Qed.

(** The [try] body, case by case: it raises before it has written anything,
    or it writes its four samples and returns. *)
Lemma fetch_host_run self w i host :
  Spec.started self →
  match get_server_certificate w i host with
  | Raise e => X509Metrics.fetch_host self w i host = ([], Raise e)
  | Ok pem =>
      match load_pem_x509_certificate w pem with
      | Raise e => X509Metrics.fetch_host self w i host = ([], Raise e)
      | Ok cert =>
          match Sink.labels (X509Metrics.not_valid_after self)
                            (X509Metrics.compose_labels self host cert) with
          | Raise e => X509Metrics.fetch_host self w i host = ([], Raise e)
          | Ok series =>
              X509Metrics.fetch_host self w i host =
              ( [ Spec.cert_sample (X509Metrics.not_valid_after self) series
                    (X509.not_valid_after cert);
                  Spec.cert_sample (X509Metrics.not_valid_before self) series
                    (X509.not_valid_before cert);
                  Spec.cert_sample (X509Metrics.expired self) series
                    (Z.b2z (X509.not_valid_after cert <? now w i));
                  Spec.host_flag self host 0 ],
                Ok tt )
          end
      end
  end.
Proof.
  intros Hs. destruct (started_gauges self Hs) as (Hnb & Hex & _).
  unfold X509Metrics.fetch_host.
  destruct (get_server_certificate w i host) as [pem|e]; [|done]. simpl.
  destruct (load_pem_x509_certificate w pem) as [cert|e]; [|done]. simpl.
  rewrite (flag_set self host 0 Hs).
  unfold labels_set.
  rewrite (labels_same _ _ _ Hnb), (labels_same _ _ _ Hex).
  by destruct (Sink.labels (X509Metrics.not_valid_after self) _) as [series|e].
Qed.

Lemma fetch_host_fails self w i host :
  Spec.started self →
  Spec.fails self w i host = true →
  ∃ e, X509Metrics.fetch_host self w i host = ([], Raise e).
Proof.
  intros Hs Hf. pose proof (fetch_host_run self w i host Hs) as Hrun.
  unfold Spec.fails in Hf.
  destruct (get_server_certificate w i host) as [pem|e]; [|eauto].
  destruct (load_pem_x509_certificate w pem) as [cert|e]; [|eauto].
  destruct (Sink.labels _ _) as [series|e]; [|eauto].
  rewrite Hrun in Hf. discriminate Hf.
Qed.

Lemma fetch_host_returns self w i host :
  Spec.started self →
  Spec.fails self w i host = false →
  ∃ pem cert series,
    get_server_certificate w i host = Ok pem
    ∧ load_pem_x509_certificate w pem = Ok cert
    ∧ Sink.labels (X509Metrics.not_valid_after self)
                  (X509Metrics.compose_labels self host cert) = Ok series
    ∧ X509Metrics.fetch_host self w i host =
      ( [ Spec.cert_sample (X509Metrics.not_valid_after self) series
            (X509.not_valid_after cert);
          Spec.cert_sample (X509Metrics.not_valid_before self) series
            (X509.not_valid_before cert);
          Spec.cert_sample (X509Metrics.expired self) series
            (Z.b2z (X509.not_valid_after cert <? now w i));
          Spec.host_flag self host 0 ],
        Ok tt ).
Proof.
  intros Hs Hf. pose proof (fetch_host_run self w i host Hs) as Hrun.
  unfold Spec.fails in Hf.
  destruct (get_server_certificate w i host) as [pem|e] eqn:Hg;
    [|rewrite Hrun in Hf; discriminate Hf].
  destruct (load_pem_x509_certificate w pem) as [cert|e] eqn:Hp;
    [|rewrite Hrun in Hf; discriminate Hf].
  destruct (Sink.labels _ _) as [series|e] eqn:Hl;
    [|rewrite Hrun in Hf; discriminate Hf].
  by exists pem, cert, series.
Qed.

(** One turn of the loop never raises: a failed host costs one error and one
    flag, a fetched host its four samples. *)
Lemma poll_run self w i host error_count :
  Spec.started self →
  X509Metrics.poll self w i host error_count =
  if Spec.fails self w i host
  then ([Spec.host_flag self host 1], Ok (error_count + 1))
  else ((X509Metrics.fetch_host self w i host).1, Ok error_count).
Proof.
  intros Hs. unfold X509Metrics.poll.
  destruct (Spec.fails self w i host) eqn:Hf.
  - destruct (fetch_host_fails self w i host Hs Hf) as [e ->]. simpl.
    by rewrite (flag_set self host 1 Hs).
  - destruct (fetch_host_returns self w i host Hs Hf) as (? & ? & ? & _ & _ & _ & ->).
    done.
Qed.

Lemma turn_trace_run self w i host :
  Spec.started self →
  Spec.turn_trace self w i host =
  if Spec.fails self w i host
  then [Spec.host_flag self host 1]
  else (X509Metrics.fetch_host self w i host).1.
Proof.
  intros Hs. unfold Spec.turn_trace. rewrite poll_run by done.
  by destruct (Spec.fails self w i host).
Qed.

Lemma failures_cons self w i host hosts :
  Spec.failures self w i (host :: hosts) =
  ((if Spec.fails self w i host then 1 else 0)
   + Spec.failures self w (S i) hosts)%nat.
Proof.
  unfold Spec.failures. simpl.
  destruct (Spec.fails self w i host) eqn:Hf.
  - by rewrite filter_cons_True.
  - rewrite filter_cons_False; [done|]. simpl. congruence.
Qed.

(** The loop: it returns, having written the turns one after the other and
    counted the hosts that failed. *)
Lemma loop_run self w i hosts error_count :
  Spec.started self →
  X509Metrics.loop self w i hosts error_count =
  ( Spec.turns_trace self w i hosts,
    Ok (error_count + Z.of_nat (Spec.failures self w i hosts)) ).
Proof.
  intros Hs. revert i error_count.
  induction hosts as [|host rest IH]; intros i error_count.
  - simpl. unfold Spec.failures. simpl. by rewrite Z.add_0_r.
  - simpl. rewrite failures_cons, turn_trace_run by done.
    rewrite poll_run by done.
    destruct (Spec.fails self w i host); simpl; rewrite IH; simpl;
      do 2 f_equal; lia.
Qed.

(** The cycle: the turns, then the aggregate, once. *)
Lemma fetch_run self w :
  Spec.started self →
  X509Metrics.fetch self w =
  ( Spec.turns_trace self w 0 (AppConfig.hosts (X509Metrics.config self))
    ++ [ Spec.read_errors_sample self
           (Z.of_nat (Spec.failures self w 0
                        (AppConfig.hosts (X509Metrics.config self)))) ],
    Ok tt ).
Proof.
  intros Hs. unfold X509Metrics.fetch. rewrite loop_run by done. done.
Qed.

Lemma turns_trace_lookup self w i hosts k host :
  hosts !! k = Some host →
  ∀ x, x ∈ Spec.turn_trace self w (i + k) host →
       x ∈ Spec.turns_trace self w i hosts.
Proof.
  revert i k. induction hosts as [|h rest IH]; intros i k Hk x Hx; [done|].
  simpl. apply elem_of_app. destruct k as [|k]; simpl in Hk.
  - injection Hk as ->. left. by rewrite Nat.add_0_r in Hx.
  - right. apply (IH (S i) k Hk). by replace (S i + k)%nat with (i + S k)%nat by lia.
Qed.
End cycle_facts.

(* ===================================================================== *)
(** * Claims about the collector                                          *)
(* ===================================================================== *)

Lemma scenario_started : Spec.started Scenario.collector.
Proof. exists [], Scenario.config. eexists. reflexivity. Qed.

Lemma clash_started : Spec.started Scenario.clash_collector.
Proof. exists [], Scenario.clash_config. eexists. reflexivity. Qed.

Lemma twice_started : Spec.started Scenario.twice_collector.
Proof. exists [], Scenario.twice_config. eexists. reflexivity. Qed.

(** C5, as the program has it. The label schema of the three per-certificate
    gauges is the constructor's fourteen fixed names followed by the custom
    label names: a name belongs to it exactly when it is [host], one of the
    twelve issuer and subject fields, [serial_number], or a custom label
    name. *)
Theorem label_schema_fixed_at_startup
    (environ : Py.dict string) (config : AppConfig.t)
    (startup : list Sink.Sample) (self : X509Metrics.t)
    (Hinit : X509Metrics.init environ config = (startup, Ok self)) :
  let schema :=
    X509Metrics.fixed_labels ++ (Label.name <$> AppConfig.labels config) in
  Sink.labelnames (X509Metrics.not_valid_after self) = schema
  ∧ Sink.labelnames (X509Metrics.not_valid_before self) = schema
  ∧ Sink.labelnames (X509Metrics.expired self) = schema
  ∧ (∀ l, l ∈ schema ↔
          l = "host" ∨ l ∈ Spec.dn_fields ∨ l = "serial_number"
          ∨ l ∈ (Label.name <$> AppConfig.labels config)).
Proof.
  apply init_inv in Hinit as (interval & _ & ->). simpl.
  split; [done|]. split; [done|]. split; [done|].
  intros l. rewrite dn_fields_eq.
  change (?a :: ?b :: ?c :: ?d :: ?e :: ?f :: ?g :: ?h :: ?i :: ?j :: ?k
            :: ?m :: ?n :: ?o :: ?rest)
    with ([a; b; c; d; e; f; g; h; i; j; k; m; n; o] ++ rest).
  rewrite elem_of_app. set (names := Label.name <$> AppConfig.labels config).
  rewrite !elem_of_cons, !elem_of_nil. tauto.
Qed.

Lemma label_schema_fixed_at_startup_witness :
  Sink.labelnames (X509Metrics.expired Scenario.collector)
  = X509Metrics.fixed_labels ++ ["env"]
  ∧ "serial_number" ∈ Sink.labelnames (X509Metrics.not_valid_after Scenario.collector).
Proof.
  pose proof (label_schema_fixed_at_startup [] Scenario.config _
                Scenario.collector eq_refl) as (Hna & _ & Hex & Hin).
  split; [exact Hex|]. rewrite Hna. apply Hin. right; right; left. reflexivity.
Defined.

(** C5 as worded leaves a name out: with no custom label at all,
    [serial_number] is a label of the per-certificate gauges, and it is
    neither [host] nor one of the twelve issuer and subject fields. *)
Lemma label_schema_counterexample :
  let config :=
    {| AppConfig.metrics := <["pollingInterval" := 43200]> ∅;
       AppConfig.hosts := []; AppConfig.labels := [] |} in
  ∃ startup self,
    X509Metrics.init [] config = (startup, Ok self)
    ∧ "serial_number" ∈ Sink.labelnames (X509Metrics.not_valid_after self)
    ∧ "serial_number" ∉ Spec.label_schema config.
Proof.
  eexists _, _. split; [reflexivity|]. split.
  - apply (bool_decide_unpack _). vm_compute. exact I.
  - apply (bool_decide_unpack _). vm_compute. exact I.
Qed.

Section sink_facts.
Implicit Types (store : gmap (string * list string) Z) (x : Sink.Sample)
  (trace : list Sink.Sample).

Lemma replay_app store trace trace' :
  Sink.replay store (trace ++ trace') = Sink.replay (Sink.replay store trace) trace'.
Proof. apply fold_left_app. Qed.

Lemma replay_last store trace x :
  Sink.replay store (trace ++ [x]) !! (Sink.metric x, Sink.series x)
  = Some (Sink.reading x).
Proof. rewrite replay_app. simpl. apply lookup_insert_eq. Qed.

(** A series that no sample of the trace names keeps its reading. *)
Lemma replay_frame store trace (key : string * list string) :
  (∀ x, x ∈ trace → (Sink.metric x, Sink.series x) ≠ key) →
  Sink.replay store trace !! key = store !! key.
Proof.
  revert store. induction trace as [|x trace IH]; intros store Hkey; [done|].
  simpl. rewrite IH by (intros y Hy; apply Hkey; by apply list_elem_of_further).
  unfold Sink.record. apply lookup_insert_ne, Hkey, list_elem_of_here.
Qed.
End sink_facts.

Section cycle_claims.
Implicit Types (self : X509Metrics.t) (w : World) (host : Host.t).

(** The samples of a turn belong to the four gauges the loop writes. *)
Lemma turn_trace_metrics self w i host x :
  Spec.started self →
  x ∈ Spec.turn_trace self w i host →
  Sink.metric x ∈
    [ "x509_cert_not_after"; "x509_cert_not_before"; "x509_expired";
      "x509_host_read_errors" ].
Proof.
  intros Hs Hx. rewrite turn_trace_run in Hx by done.
  destruct (started_gauges self Hs) as (_ & _ & _ & Hna & Hnb & Hex & Hh & _).
  destruct (Spec.fails self w i host) eqn:Hf.
  - apply list_elem_of_singleton in Hx as ->. simpl. rewrite Hh. set_solver.
  - destruct (fetch_host_returns self w i host Hs Hf)
      as (pem & cert & series & _ & _ & _ & Hrun).
    rewrite Hrun in Hx. simpl in Hx.
    rewrite !elem_of_cons, elem_of_nil in Hx.
    destruct Hx as [-> | [-> | [-> | [-> | []]]]]; simpl;
      rewrite ?Hna, ?Hnb, ?Hex, ?Hh; set_solver.
Qed.

Lemma turns_trace_metrics self w i hosts x :
  Spec.started self →
  x ∈ Spec.turns_trace self w i hosts →
  Sink.metric x ∈
    [ "x509_cert_not_after"; "x509_cert_not_before"; "x509_expired";
      "x509_host_read_errors" ].
Proof.
  intros Hs. revert i. induction hosts as [|host rest IH]; intros i Hx; simpl in Hx.
  - by apply elem_of_nil in Hx.
  - apply elem_of_app in Hx as [Hx|Hx]; [by eapply turn_trace_metrics | by eapply IH].
Qed.

(** What a turn writes depends on the world only through what it answers for
    this host at this turn. *)
Lemma turn_trace_local self w w' i host :
  get_server_certificate w i host = get_server_certificate w' i host →
  load_pem_x509_certificate w = load_pem_x509_certificate w' →
  now w i = now w' i →
  Spec.turn_trace self w i host = Spec.turn_trace self w' i host.
Proof.
  intros Hg Hl Hn.
  unfold Spec.turn_trace, X509Metrics.poll, X509Metrics.fetch_host.
  by rewrite Hg, Hl, Hn.
Qed.
End cycle_claims.

(** C1. A cycle never raises. What it writes is the turns of its hosts, one
    after the other, and then the aggregate: for every host of the list,
    whatever happens to the others, a failure of its fetch is caught in its
    own turn and leaves its error flag set to 1, and a fetch that works
    leaves its three per-certificate samples and its error flag set to 0. *)
Theorem fetch_never_raises_and_isolates
    (self : X509Metrics.t) (w : World) (Hs : Spec.started self) :
  let hosts := AppConfig.hosts (X509Metrics.config self) in
  let written := (X509Metrics.fetch self w).1 in
  (X509Metrics.fetch self w).2 = Ok tt
  ∧ written
    = Spec.turns_trace self w 0 hosts
      ++ [Spec.read_errors_sample self (Z.of_nat (Spec.failures self w 0 hosts))]
  ∧ ∀ i host,
      hosts !! i = Some host →
      (Spec.fails self w i host = true →
       Spec.host_flag self host 1 ∈ written)
      ∧ (Spec.fails self w i host = false →
         ∃ pem cert series,
           get_server_certificate w i host = Ok pem
           ∧ load_pem_x509_certificate w pem = Ok cert
           ∧ Spec.cert_sample (X509Metrics.not_valid_after self) series
               (X509.not_valid_after cert) ∈ written
           ∧ Spec.cert_sample (X509Metrics.not_valid_before self) series
               (X509.not_valid_before cert) ∈ written
           ∧ Spec.cert_sample (X509Metrics.expired self) series
               (Z.b2z (X509.not_valid_after cert <? now w i)) ∈ written
           ∧ Spec.host_flag self host 0 ∈ written).
Proof.
  intros hosts written. subst written. rewrite fetch_run by done. simpl.
  split; [done|]. split; [done|].
  intros i host Hi.
  assert (∀ x, x ∈ Spec.turn_trace self w i host →
               x ∈ Spec.turns_trace self w 0 hosts
                   ++ [Spec.read_errors_sample self
                         (Z.of_nat (Spec.failures self w 0 hosts))]) as Hin.
  { intros x Hx. apply elem_of_app. left.
    by apply (turns_trace_lookup self w 0%nat hosts i host Hi). }
  rewrite turn_trace_run in Hin by done. split; intros Hf; rewrite Hf in Hin.
  - apply Hin, list_elem_of_here.
  - destruct (fetch_host_returns self w i host Hs Hf)
      as (pem & cert & series & Hg & Hl & _ & Hrun).
    rewrite Hrun in Hin. simpl in Hin.
    exists pem, cert, series. split; [done|]. split; [done|].
    repeat split; apply Hin; set_solver.
Qed.

Lemma fetch_never_raises_and_isolates_witness :
  (X509Metrics.fetch Scenario.collector (Scenario.world 1500)).2 = Ok tt
  ∧ Spec.host_flag Scenario.collector Scenario.host_b 1
      ∈ (X509Metrics.fetch Scenario.collector (Scenario.world 1500)).1
  ∧ Spec.host_flag Scenario.collector Scenario.host_c 0
      ∈ (X509Metrics.fetch Scenario.collector (Scenario.world 1500)).1.
Proof.
  pose proof (fetch_never_raises_and_isolates
                Scenario.collector (Scenario.world 1500) scenario_started)
    as (Hok & _ & Hhosts).
  split; [exact Hok|]. split.
  - apply (proj1 (Hhosts 1%nat Scenario.host_b eq_refl)). reflexivity.
  - destruct (proj2 (Hhosts 2%nat Scenario.host_c eq_refl) eq_refl)
      as (? & ? & ? & _ & _ & _ & _ & _ & Hflag).
    exact Hflag.
Defined.

(** C2. After a cycle the aggregate gauge reads the number of hosts whose
    fetch failed in that cycle. It is written once, by the last sample of the
    cycle: no sample of the turns before it belongs to the aggregate gauge. *)
Theorem read_errors_counts_failed_hosts
    (self : X509Metrics.t) (w : World)
    (store : gmap (string * list string) Z) (Hs : Spec.started self) :
  let hosts := AppConfig.hosts (X509Metrics.config self) in
  let failed := Z.of_nat (Spec.failures self w 0 hosts) in
  (X509Metrics.fetch self w).1
  = Spec.turns_trace self w 0 hosts ++ [Spec.read_errors_sample self failed]
  ∧ (∀ x, x ∈ Spec.turns_trace self w 0 hosts →
          Sink.metric x ≠ Sink.fullname (X509Metrics.read_errors self))
  ∧ Sink.replay store (X509Metrics.fetch self w).1
      !! (Sink.fullname (X509Metrics.read_errors self), [])
    = Some failed.
Proof.
  intros hosts failed. rewrite fetch_run by done. simpl.
  split; [done|]. split.
  - intros x Hx. apply (turns_trace_metrics self w 0%nat hosts x Hs) in Hx.
    destruct (started_gauges self Hs) as (_ & _ & _ & _ & _ & _ & _ & ->).
    intros Heq. rewrite Heq, !elem_of_cons, elem_of_nil in Hx.
    destruct Hx as [Hx | [Hx | [Hx | [Hx | []]]]]; discriminate Hx.
  - apply (replay_last store _ (Spec.read_errors_sample self failed)).
Qed.

Lemma read_errors_counts_failed_hosts_witness :
  length (AppConfig.hosts (X509Metrics.config Scenario.collector)) = 3%nat
  ∧ Sink.replay ∅ (X509Metrics.fetch Scenario.collector (Scenario.world 1500)).1
      !! ("x509_read_errors", [])
    = Some 1.
Proof.
  split; [reflexivity|].
  exact (proj2 (proj2 (read_errors_counts_failed_hosts
                         Scenario.collector (Scenario.world 1500) ∅
                         scenario_started))).
Defined.

Section persistence_facts.
Implicit Types (self : X509Metrics.t) (w : World) (host : Host.t)
  (store : gmap (string * list string) Z).

Lemma getitem_setitem_ne {V : Type} (d : Py.dict V) (k k' : string) (v : V) :
  k ≠ k' → Py.getitem (Py.setitem d k v) k' = Py.getitem d k'.
Proof.
  intros Hne. induction d as [|[k0 v0] d IH]; simpl.
  - by rewrite decide_False.
  - destruct (decide (k0 = k)) as [->|Hk0]; simpl.
    + by rewrite !decide_False.
    + case_decide; [done | apply IH].
Qed.

(** The custom labels never displace the [host] entry of the dictionary. *)
Lemma compose_labels_host self host cert :
  Py.getitem (X509Metrics.compose_labels self host cert) "host"
  = Some (Sink.VStr (Host.render host)).
Proof.
  unfold X509Metrics.compose_labels.
  match goal with
  | |- Py.getitem (fold_left ?f ?custom ?d0) _ = _ =>
      assert (Py.getitem d0 "host" = Some (Sink.VStr (Host.render host)))
        as Hd0 by reflexivity;
      generalize dependent d0; generalize custom
  end.
  intros custom. induction custom as [|label custom IH]; intros d0 Hd0; [done|].
  simpl. apply IH.
  destruct (Py.contains d0 (Label.name label)) eqn:Hc; simpl; [done|].
  rewrite getitem_setitem_ne; [done|].
  intros Heq. apply contains_false in Hc. rewrite Heq in Hc. congruence.
Qed.

Lemma labels_head (g : Sink.Gauge) (kw : Py.dict Sink.value)
    (rest series : list string) (v : Sink.value) :
  Sink.labelnames g = "host" :: rest →
  Py.getitem kw "host" = Some v →
  Sink.labels g kw = Ok series →
  head series = Some (Sink.str v).
Proof.
  intros Hg Hv. unfold Sink.labels.
  repeat (case_bool_decide; try discriminate).
  intros Hs. injection Hs as <-. rewrite Hg. simpl. by rewrite Hv.
Qed.

(** The samples of a turn: the flag 1 of a failed host, or for a fetched host
    the flag 0 and samples of the per-certificate gauges whose series starts
    with the rendering of the host. *)
Lemma turn_trace_samples self w k host x :
  Spec.started self →
  x ∈ Spec.turn_trace self w k host →
  (Spec.fails self w k host = true ∧ x = Spec.host_flag self host 1)
  ∨ (Spec.fails self w k host = false
     ∧ (x = Spec.host_flag self host 0
        ∨ ∃ g series v,
            g ∈ [ X509Metrics.not_valid_after self;
                  X509Metrics.not_valid_before self;
                  X509Metrics.expired self ]
            ∧ x = Spec.cert_sample g series v
            ∧ head series = Some (Host.render host))).
Proof.
  intros Hs Hx. rewrite turn_trace_run in Hx by done.
  destruct (Spec.fails self w k host) eqn:Hf.
  - left. apply list_elem_of_singleton in Hx. done.
  - right. split; [done|].
    destruct (fetch_host_returns self w k host Hs Hf)
      as (pem & cert & series & _ & _ & Hl & Hrun).
    assert (head series = Some (Host.render host)) as Hhead.
    { assert (∃ rest, Sink.labelnames (X509Metrics.not_valid_after self)
                       = "host" :: rest) as [rest Hrest].
      { destruct Hs as (environ & config & startup & Hinit).
        apply init_inv in Hinit as (interval & _ & ->). simpl. eauto. }
      exact (labels_head _ _ _ _ _ Hrest (compose_labels_host self host cert) Hl). }
    rewrite Hrun in Hx. simpl in Hx. rewrite !elem_of_cons, elem_of_nil in Hx.
    destruct Hx as [-> | [-> | [-> | [-> | []]]]]; [right | right | right | by left];
      eexists _, series, _; (split; [|done]); set_solver.
Qed.

Lemma turns_trace_inv self w i hosts x :
  x ∈ Spec.turns_trace self w i hosts →
  ∃ k host, hosts !! k = Some host ∧ x ∈ Spec.turn_trace self w (i + k) host.
Proof.
  revert i. induction hosts as [|h rest IH]; intros i Hx; simpl in Hx.
  - by apply elem_of_nil in Hx.
  - apply elem_of_app in Hx as [Hx|Hx].
    + exists 0%nat, h. by rewrite Nat.add_0_r.
    + destruct (IH _ Hx) as (k & host & Hk & Hin). exists (S k), host.
      split; [done|]. by replace (i + S k)%nat with (S i + k)%nat by lia.
Qed.

(** A series that a trace writes, and always with the same reading, has that
    reading afterwards. *)
Lemma replay_const store (trace : list Sink.Sample)
    (key : string * list string) (v : Z) :
  (∀ x, x ∈ trace → (Sink.metric x, Sink.series x) = key → Sink.reading x = v) →
  (∃ x, x ∈ trace ∧ (Sink.metric x, Sink.series x) = key) →
  Sink.replay store trace !! key = Some v.
Proof.
  revert store. induction trace as [|y trace IH]; intros store Hv [x [Hx Hkey]].
  - by apply elem_of_nil in Hx.
  - simpl.
    destruct (decide (Exists (fun z => (Sink.metric z, Sink.series z) = key) trace))
      as [Hex|Hnone].
    + apply IH.
      * intros z Hz. apply Hv. by apply list_elem_of_further.
      * apply Exists_exists in Hex as (z & Hz & Hzk). eauto.
    + rewrite replay_frame.
      * apply elem_of_cons in Hx as [->|Hx].
        -- unfold Sink.record. rewrite Hkey, lookup_insert_eq. f_equal.
           apply Hv; [apply list_elem_of_here | done].
        -- destruct Hnone. apply Exists_exists. eauto.
      * intros z Hz Hzk. apply Hnone, Exists_exists. eauto.
Qed.

(** A whole cycle, seen from a host every fetch of which fails in it: the
    series of the per-certificate gauges that carry its rendering are not
    written, and its error flag ends at 1. *)
Lemma cycle_failed_host self w store host :
  Spec.started self →
  let hosts := AppConfig.hosts (X509Metrics.config self) in
  let after := Sink.replay store (X509Metrics.fetch self w).1 in
  (∀ k h, hosts !! k = Some h → Host.render h = Host.render host →
          Spec.fails self w k h = true) →
  (∀ g series,
      g ∈ [ X509Metrics.not_valid_after self;
            X509Metrics.not_valid_before self;
            X509Metrics.expired self ] →
      head series = Some (Host.render host) →
      after !! (Sink.fullname g, series) = store !! (Sink.fullname g, series))
  ∧ ((∃ k h, hosts !! k = Some h ∧ Host.render h = Host.render host) →
     after !! (Sink.fullname (X509Metrics.host_read_errors self),
               [Host.render host]) = Some 1).
Proof.
  intros Hs hosts after Hall. subst after. rewrite fetch_run by done. simpl.
  fold hosts.
  destruct (started_gauges self Hs) as (_ & _ & _ & Hna & Hnb & Hex & Hh & Hre).
  assert (∀ g, g ∈ [ X509Metrics.not_valid_after self;
                      X509Metrics.not_valid_before self;
                      X509Metrics.expired self ] →
               Sink.fullname g ≠ "x509_host_read_errors"
               ∧ Sink.fullname g ≠ "x509_read_errors") as Hnames.
  { intros g Hg. rewrite !elem_of_cons, elem_of_nil in Hg.
    destruct Hg as [-> | [-> | [-> | []]]]; rewrite ?Hna, ?Hnb, ?Hex;
      split; discriminate. }
  split.
  - intros g series Hg Hhead. apply replay_frame. intros x Hx Hkey.
    destruct (Hnames g Hg) as [Hgh Hgr].
    apply elem_of_app in Hx as [Hx|Hx].
    + apply turns_trace_inv in Hx as (k & h & Hk & Hx). simpl in Hx.
      apply (turn_trace_samples self w k h x Hs) in Hx
        as [[_ ->] | [Hf [-> | (g' & series' & v & _ & -> & Hhead')]]];
        simpl in Hkey.
      * injection Hkey as Hm _. rewrite Hh in Hm. by apply Hgh.
      * injection Hkey as Hm _. rewrite Hh in Hm. by apply Hgh.
      * injection Hkey as _ ->. rewrite Hhead in Hhead'.
        injection Hhead' as Hr. rewrite (Hall k h Hk (eq_sym Hr)) in Hf.
        discriminate Hf.
    + apply list_elem_of_singleton in Hx as ->. simpl in Hkey.
      injection Hkey as Hm _. rewrite Hre in Hm. by apply Hgr.
  - intros (k & h & Hk & Hr). apply replay_const.
    + intros x Hx Hkey. apply elem_of_app in Hx as [Hx|Hx].
      * apply turns_trace_inv in Hx as (k' & h' & Hk' & Hx). simpl in Hx.
        apply (turn_trace_samples self w k' h' x Hs) in Hx
          as [[_ ->] | [Hf [-> | (g' & series' & v & Hg' & -> & _)]]];
          simpl in Hkey; [done | |].
        -- injection Hkey as Hr'. rewrite (Hall k' h' Hk' Hr') in Hf.
           discriminate Hf.
        -- injection Hkey as Hm _. destruct (Hnames g' Hg') as [Hgh _].
           rewrite Hh in Hm. by destruct Hgh.
      * apply list_elem_of_singleton in Hx as ->. simpl in Hkey.
        injection Hkey as Hm _. rewrite Hre, Hh in Hm. discriminate Hm.
    + exists (Spec.host_flag self h 1). split; [|by simpl; rewrite Hr].
      apply elem_of_app. left.
      apply (turns_trace_lookup self w 0%nat hosts k h Hk). simpl.
      rewrite turn_trace_run, (Hall k h Hk Hr) by done. apply list_elem_of_here.
Qed.
End persistence_facts.

(** C4, as the program has it. When the fetch of a host fails, for whatever
    exception, its turn writes one sample and no other: the error flag of the
    host, set to 1. The error count goes up by one, and over the turn every
    series of the three per-certificate gauges, indeed every series but that
    flag, keeps the reading it had. Over the whole cycle the same holds for
    the host when every listed entry that renders to its [name:port] fails in
    the cycle: its flag reads 1 after the cycle and no series of the three
    per-certificate gauges that carries its [name:port] is written, so each
    keeps the reading it had before the cycle. *)
Theorem failed_host_flagged_and_stale
    (self : X509Metrics.t) (w : World) (i : nat) (host : Host.t)
    (error_count : Z) (store : gmap (string * list string) Z)
    (Hs : Spec.started self)
    (Hfail : Spec.fails self w i host = true) :
  let hosts := AppConfig.hosts (X509Metrics.config self) in
  let after := Sink.replay store (Spec.turn_trace self w i host) in
  let cycle := Sink.replay store (X509Metrics.fetch self w).1 in
  X509Metrics.poll self w i host error_count
  = ([Spec.host_flag self host 1], Ok (error_count + 1))
  ∧ after !! (Sink.fullname (X509Metrics.host_read_errors self),
              [Host.render host]) = Some 1
  ∧ (∀ g series,
        g ∈ [ X509Metrics.not_valid_after self;
              X509Metrics.not_valid_before self;
              X509Metrics.expired self ] →
        after !! (Sink.fullname g, series) = store !! (Sink.fullname g, series))
  ∧ (∀ key,
        key ≠ (Sink.fullname (X509Metrics.host_read_errors self),
               [Host.render host]) →
        after !! key = store !! key)
  ∧ (hosts !! i = Some host →
     (∀ k h, hosts !! k = Some h → Host.render h = Host.render host →
             Spec.fails self w k h = true) →
     cycle !! (Sink.fullname (X509Metrics.host_read_errors self),
               [Host.render host]) = Some 1
     ∧ ∀ g series,
         g ∈ [ X509Metrics.not_valid_after self;
               X509Metrics.not_valid_before self;
               X509Metrics.expired self ] →
         head series = Some (Host.render host) →
         cycle !! (Sink.fullname g, series) = store !! (Sink.fullname g, series)).
Proof.
  intros hosts after cycle. subst after cycle.
  rewrite turn_trace_run, poll_run, Hfail by done.
  split; [done|]. simpl. unfold Sink.record. simpl.
  split; [apply lookup_insert_eq|].
  assert (∀ key,
            key ≠ (Sink.fullname (X509Metrics.host_read_errors self),
                   [Host.render host]) →
            <[(Sink.fullname (X509Metrics.host_read_errors self),
               [Host.render host]) := 1]> store !! key = store !! key) as Hframe.
  { intros key Hkey. by apply lookup_insert_ne. }
  split; [|split; [exact Hframe|]].
  - intros g series Hg. apply Hframe.
    destruct (started_gauges self Hs) as (_ & _ & _ & Hna & Hnb & Hex & Hh & _).
    rewrite Hh. rewrite !elem_of_cons, elem_of_nil in Hg.
    destruct Hg as [-> | [-> | [-> | []]]]; rewrite ?Hna, ?Hnb, ?Hex;
      intros Heq; discriminate Heq.
  - intros Hlisted Hall.
    destruct (cycle_failed_host self w store host Hs Hall) as [Hkeep Hflag].
    split; [|exact Hkeep]. apply Hflag. by exists i, host.
Qed.

Lemma failed_host_flagged_and_stale_witness :
  X509Metrics.poll Scenario.collector (Scenario.world 1500) 1 Scenario.host_b 0
  = ([Spec.host_flag Scenario.collector Scenario.host_b 1], Ok 1)
  ∧ Sink.replay ∅ (X509Metrics.fetch Scenario.collector (Scenario.world 1500)).1
      !! ("x509_host_read_errors", ["b.example:443"]) = Some 1
  ∧ Sink.replay ∅ (X509Metrics.fetch Scenario.collector (Scenario.world 1500)).1
      !! ("x509_expired",
          Spec.fixed_values Scenario.host_b Scenario.certificate ++ ["prod"])
    = None.
Proof.
  destruct (failed_host_flagged_and_stale
              Scenario.collector (Scenario.world 1500) 1 Scenario.host_b 0 ∅
              scenario_started eq_refl)
    as (Hpoll & _ & _ & _ & Hcycle).
  destruct (Hcycle eq_refl) as [Hflag Hkeep].
  { intros k h Hk Hr.
    destruct k as [|[|[|k]]]; simpl in Hk; try discriminate Hk;
      injection Hk as <-; first [reflexivity | discriminate Hr]. }
  split; [exact Hpoll|]. split; [exact Hflag|].
  assert (X509Metrics.expired Scenario.collector
          ∈ [ X509Metrics.not_valid_after Scenario.collector;
              X509Metrics.not_valid_before Scenario.collector;
              X509Metrics.expired Scenario.collector ]) as Hg.
  { do 2 apply list_elem_of_further. apply list_elem_of_here. }
  exact (Hkeep (X509Metrics.expired Scenario.collector)
               (Spec.fixed_values Scenario.host_b Scenario.certificate
                ++ ["prod"]) Hg eq_refl).
Defined.

(** C4 as worded speaks of every host whose fetch fails in a cycle. A host
    may be listed twice: here [b.example:443] is, its first fetch of the cycle
    fails and its second works. The turn of the first writes the flag 1, but
    after the cycle the flag reads 0 and the [cert_not_after], [cert_not_before]
    and [expired] series of the host have been written in that cycle. *)
Lemma stale_claim_counterexample :
  let self := Scenario.twice_collector in
  let w := Scenario.flaky_world in
  let series := Spec.fixed_values Scenario.host_b Scenario.certificate in
  let cycle := Sink.replay ∅ (X509Metrics.fetch self w).1 in
  Spec.started self
  ∧ AppConfig.hosts (X509Metrics.config self) !! 0%nat = Some Scenario.host_b
  ∧ Spec.fails self w 0 Scenario.host_b = true
  ∧ cycle !! ("x509_host_read_errors", ["b.example:443"]) = Some 0
  ∧ cycle !! ("x509_cert_not_after", series) = Some 2000
  ∧ cycle !! ("x509_cert_not_before", series) = Some 1000
  ∧ cycle !! ("x509_expired", series) = Some 0.
Proof.
  intros self w series cycle.
  split; [exact twice_started|].
  split; [reflexivity|]. split; [reflexivity|].
  subst cycle series self w.
  repeat split; apply (bool_decide_unpack _); vm_compute; exact I.
Qed.

(* ===================================================================== *)
(** * Further properties: the resolver                                    *)
(* ===================================================================== *)

Section resolver_more.
Implicit Types (environ : Py.dict string) (s : string) (c sep : ascii).

(** An invariant of a loop holds at its end when every turn keeps it. *)
Lemma fold_left_invariant {A B} (P : A → Prop) (f : A → B → A)
    (l : list B) (a : A) :
  P a → (∀ a x, x ∈ l → P a → P (f a x)) → P (fold_left f l a).
Proof.
  revert a. induction l as [|x l IH]; intros a Ha Hf; [done|].
  simpl. apply IH.
  - apply Hf; [apply list_elem_of_here | done].
  - intros a' y Hy. apply Hf. by apply list_elem_of_further.
Qed.

Lemma append_String c s s' : String c s +:+ s' = String c (s +:+ s').
Proof. reflexivity. Qed.

Lemma before_after_join sep s :
  Py.count_char sep s = 1%nat →
  Spec.before sep s +:+ String sep (Spec.after sep s) = s
  ∧ Py.count_char sep (Spec.before sep s) = O
  ∧ Py.count_char sep (Spec.after sep s) = O.
Proof.
  induction s as [|c r IH]; simpl; [done|].
  case_decide as Hc; simpl; intros Hcount.
  - subst c. split; [done|]. split; [done | lia].
  - destruct (IH Hcount) as (Hj & Hb & Ha). rewrite decide_False by done.
    simpl. by rewrite append_String, Hj.
Qed.

Lemma code_of_N (n : N) : (n < 256)%N → Py.code (ascii_of_N n) = n.
Proof. intros Hn. unfold Py.code. by apply N_ascii_embedding. Qed.

Lemma code_bound c : (Py.code c < 256)%N.
Proof. unfold Py.code. apply N_ascii_bounded. Qed.

Lemma lower_char_class c :
  AppConfig.label_class c = true →
  AppConfig.label_class (Py.lower_char c) = true
  ∧ Py.is_upper (Py.lower_char c) = false.
Proof.
  intros Hcls. unfold Py.lower_char. destruct (Py.is_upper c) eqn:Hup; [|done].
  unfold Py.is_upper, Py.between in Hup. apply andb_true_iff in Hup as [Hlo Hhi].
  apply N.leb_le in Hlo, Hhi.
  assert (Py.code (ascii_of_N (Py.code c + 32)) = (Py.code c + 32)%N) as Hcode
    by (apply code_of_N; lia).
  split.
  - unfold AppConfig.label_class, Py.is_alpha, Py.is_lower, Py.between.
    rewrite Hcode.
    assert ((97 <=? Py.code c + 32)%N && (Py.code c + 32 <=? 122)%N = true) as ->.
    { apply andb_true_iff. split; apply N.leb_le; lia. }
    by rewrite orb_true_r.
  - unfold Py.is_upper, Py.between. rewrite Hcode.
    apply andb_false_iff. right. apply N.leb_gt. lia.
Qed.

Lemma lower_class s :
  Py.str_forallb AppConfig.label_class s = true →
  Py.str_forallb
    (fun c => AppConfig.label_class c && negb (Py.is_upper c)) (Py.lower s) = true.
Proof.
  induction s as [|c r IH]; simpl; [done|]. intros Hall.
  apply andb_true_iff in Hall as [Hc Hr].
  destruct (lower_char_class c Hc) as [-> ->]. simpl. by apply IH.
Qed.

Lemma label_pattern_group env group :
  AppConfig.label_pattern env = Some group →
  group ≠ "" ∧ Py.str_forallb AppConfig.label_class group = true.
Proof.
  unfold AppConfig.label_pattern, Py.re_match_group.
  destruct (Py.match_literal_ci _ env) as [rest|]; [|done].
  simpl. destruct (Py.truthy (Py.dollar_body rest)) eqn:Ht; [|done]. simpl.
  destruct (Py.str_forallb _ _) eqn:Hall; [|done].
  intros Hg. injection Hg as <-. split; [|done].
  intros Heq. rewrite Heq in Ht. discriminate Ht.
Qed.

Lemma lower_nonempty s : s ≠ "" → Py.lower s ≠ "".
Proof. by destruct s. Qed.
Lemma label_turn_entry environ labels env value :
  Py.getitem environ env = Some value →
  AppConfig.label_turn environ labels env =
  labels ++ match AppConfig.label_pattern env with
            | Some group =>
                [ {| Label.name := Py.lower group; Label.value := value |} ]
            | None => []
            end.
Proof.
  intros Hg. unfold AppConfig.label_turn.
  destruct (AppConfig.label_pattern env); [|by rewrite app_nil_r].
  by rewrite Hg.
Qed.

Lemma label_loop_entries environ (d : Py.dict string) labels :
  (∀ k v, (k, v) ∈ d → Py.getitem environ k = Some v) →
  fold_left (AppConfig.label_turn environ) (Py.keys d) labels =
  labels ++ Spec.env_labels d.
Proof.
  revert labels. unfold Spec.env_labels.
  induction d as [|[k v] d IH]; intros labels Hd; simpl.
  - by rewrite app_nil_r.
  - rewrite (label_turn_entry environ labels k v)
      by (apply Hd, list_elem_of_here).
    rewrite IH by (intros k' v' Hin; apply Hd; by apply list_elem_of_further).
    rewrite <- app_assoc. f_equal.
    by destruct (AppConfig.label_pattern k).
Qed.

(** The labels found in the environment are the label variables, in order. *)
Lemma find_labels_spec environ :
  NoDup (Py.keys environ) →
  AppConfig.find_labels_from_environment environ = Spec.env_labels environ.
Proof.
  intros Hnd. unfold AppConfig.find_labels_from_environment.
  rewrite label_loop_entries; [done|].
  intros k v Hin. by apply getitem_entry.
Qed.

Lemma env_labels_length (d : Py.dict string) :
  length (Spec.env_labels d)
  = length (filter (fun kv => is_Some (AppConfig.label_pattern kv.1)) d).
Proof.
  unfold Spec.env_labels. induction d as [|[k v] d IH]; [done|]. simpl.
  destruct (AppConfig.label_pattern k) as [group|] eqn:Hp; simpl.
  - rewrite filter_cons_True by (simpl; rewrite Hp; eauto). simpl.
    f_equal. exact IH.
  - rewrite filter_cons_False; [exact IH|]. simpl. rewrite Hp. by intros [? ?].
Qed.

End resolver_more.

(** X1. Reading the document: a YAML error is swallowed and the constructor
    goes on as if there were no file, while any other exception raised while
    opening, decoding or parsing the file leaves the constructor. *)
Theorem yaml_error_swallowed_others_abort
    (environ : Py.dict string) (e : exn) (p q : Z)
    (He : e ≠ YAMLError)
    (Hport : int_of (dict_get environ AppConfig.PORT_VAR "8932") = Ok p)
    (Hpoll : int_of (dict_get environ AppConfig.POLLING_VAR "43200") = Ok q) :
  AppConfig.init (LoadRaises YAMLError) environ = AppConfig.init Absent environ
  ∧ AppConfig.init (LoadRaises e) environ = Raise e.
Proof.
  split.
  - unfold AppConfig.init. rewrite Hport, Hpoll. done.
  - unfold AppConfig.init. rewrite Hport, Hpoll. simpl. by destruct e.
Qed.

Lemma yaml_error_swallowed_others_abort_witness :
  AppConfig.init (LoadRaises YAMLError) [("HOME", "/root")]
  = AppConfig.init Absent [("HOME", "/root")]
  ∧ AppConfig.init (LoadRaises OSError) [("HOME", "/root")] = Raise OSError.
Proof.
  apply (yaml_error_swallowed_others_abort [("HOME", "/root")] OSError 8932 43200);
    [discriminate | reflexivity | reflexivity].
Defined.

(** X2. With the environment a mapping (distinct variable names), the labels
    found in it are exactly one label for each variable that matches the
    label pattern, in the order of the environment and as many as there are
    such variables: the name of each is the captured part of the variable's
    name, lower-cased, and its value is the variable's value, untouched.
    Every such name is non-empty and made of lower-case letters, digits,
    underscores and hyphens. *)
Theorem environment_labels_characterised
    (environ : Py.dict string)
    (Hkeys : NoDup (Py.keys environ)) :
  AppConfig.find_labels_from_environment environ = Spec.env_labels environ
  ∧ length (AppConfig.find_labels_from_environment environ)
    = length (filter (fun kv => is_Some (AppConfig.label_pattern kv.1)) environ)
  ∧ (∀ l, l ∈ AppConfig.find_labels_from_environment environ ↔
          ∃ env group value,
            (env, value) ∈ environ
            ∧ AppConfig.label_pattern env = Some group
            ∧ l = {| Label.name := Py.lower group; Label.value := value |})
  ∧ (∀ l, l ∈ AppConfig.find_labels_from_environment environ →
          Label.name l ≠ ""
          ∧ Py.str_forallb
              (fun c => AppConfig.label_class c && negb (Py.is_upper c))
              (Label.name l) = true).
Proof.
  rewrite (find_labels_spec environ Hkeys).
  split; [done|]. split; [apply env_labels_length|].
  assert (∀ l, l ∈ Spec.env_labels environ ↔
               ∃ env group value,
                 (env, value) ∈ environ
                 ∧ AppConfig.label_pattern env = Some group
                 ∧ l = {| Label.name := Py.lower group; Label.value := value |})
    as Hchar.
  { intros l. unfold Spec.env_labels. rewrite list_elem_of_omap. split.
    - intros ([env value] & Hin & Hl). simpl in Hl.
      destruct (AppConfig.label_pattern env) as [group|] eqn:Hp;
        [|discriminate Hl].
      injection Hl as <-. by exists env, group, value.
    - intros (env & group & value & Hin & Hp & ->).
      exists (env, value). split; [done|]. simpl. by rewrite Hp. }
  split; [exact Hchar|].
  intros l Hl. apply Hchar in Hl as (env & group & value & _ & Hpat & ->).
  simpl. destruct (label_pattern_group env group Hpat) as [Hne Hall].
  split; [by apply lower_nonempty | by apply lower_class].
Qed.

Lemma environment_labels_characterised_witness :
  AppConfig.find_labels_from_environment
    [ ("X509_CONFIG_LABEL_Team-A", "Ops"); ("HOME", "/root");
      ("x509_config_label_ENV", "Prod") ]
  = [ Label.mk "team-a" "Ops"; Label.mk "env" "Prod" ].
Proof.
  rewrite (proj1 (environment_labels_characterised
                    [ ("X509_CONFIG_LABEL_Team-A", "Ops"); ("HOME", "/root");
                      ("x509_config_label_ENV", "Prod") ]
                    ltac:(apply (bool_decide_unpack _); vm_compute; exact I))).
  reflexivity.
Defined.

(** X3. Every host found in the environment comes from a variable that
    matches the host pattern, and renders back, as [name:port], to the value
    of that variable; neither its name nor its port holds a colon. *)
Theorem environment_hosts_render_back
    (environ : Py.dict string) (h : Host.t)
    (Hh : h ∈ AppConfig.find_hosts_from_environment environ) :
  (∃ env,
      env ∈ Py.keys environ
      ∧ AppConfig.host_pattern env = true
      ∧ Py.getitem environ env = Some (Host.render h))
  ∧ Py.count_char ":" (Host.name h) = O
  ∧ Py.count_char ":" (Host.port h) = O.
Proof.
  revert h Hh. unfold AppConfig.find_hosts_from_environment.
  apply (fold_left_invariant
           (fun hosts : list Host.t => ∀ h, h ∈ hosts →
              (∃ env, env ∈ Py.keys environ
                      ∧ AppConfig.host_pattern env = true
                      ∧ Py.getitem environ env = Some (Host.render h))
              ∧ Py.count_char ":" (Host.name h) = O
              ∧ Py.count_char ":" (Host.port h) = O)).
  - intros h Hh. by apply elem_of_nil in Hh.
  - intros hosts env Henv IH h. unfold AppConfig.host_turn.
    destruct (AppConfig.host_pattern env) eqn:Hpat; [|apply IH].
    destruct (Py.getitem environ env) as [value|] eqn:Hget; [|apply IH].
    simpl. destruct (Py.split ":" value) as [|v0 [|v1 [|v2 vs]]] eqn:Hs;
      try apply IH.
    rewrite elem_of_app, list_elem_of_singleton. intros [Hh | ->]; [by apply IH|].
    apply split_pair in Hs as (Hc & -> & ->).
    destruct (before_after_join ":" value Hc) as (Hj & Hb & Ha). simpl.
    split; [|done]. exists env. unfold Host.render. simpl.
    repeat split; try done. rewrite Hget. f_equal. symmetry. exact Hj.
Qed.

Lemma environment_hosts_render_back_witness :
  ∃ env,
    env ∈ Py.keys [("x509_config_host_01", "db.internal:5432")]
    ∧ AppConfig.host_pattern env = true
    ∧ Py.getitem [("x509_config_host_01", "db.internal:5432")] env
      = Some "db.internal:5432".
Proof.
  refine (proj1 (environment_hosts_render_back
                   [("x509_config_host_01", "db.internal:5432")]
                   (Host.mk "db.internal" "5432") _)).
  apply (bool_decide_unpack _). vm_compute. exact I.
Defined.

(* ===================================================================== *)
(** * Further properties: the collector                                   *)
(* ===================================================================== *)

(** X4. [get_oid_attribute] gives the value of the first attribute of the
    name that carries the OID, and [None] exactly when no attribute does. *)
Theorem get_oid_attribute_first_match
    (nameObject : X509.Name) (oid : X509.NameOID) :
  (X509Metrics.get_oid_attribute nameObject oid = Sink.VNone ↔
   oid ∉ nameObject.*1)
  ∧ (∀ before value after,
        nameObject = before ++ (oid, value) :: after →
        oid ∉ before.*1 →
        X509Metrics.get_oid_attribute nameObject oid = Sink.VStr value).
Proof.
  unfold X509Metrics.get_oid_attribute, X509.get_attributes_for_oid, X509.Name in *.
  split.
  - induction nameObject as [|[o v] rest IH].
    + split; [intros _; apply not_elem_of_nil | done].
    + destruct (decide (o = oid)) as [->|Hne].
      * rewrite filter_cons_True by done. simpl. split; [done|].
        intros Hn. destruct Hn. apply list_elem_of_here.
      * rewrite filter_cons_False by done. rewrite IH, fmap_cons, not_elem_of_cons.
        simpl.
        split; [intros Hn; split; [congruence | exact Hn] | intros [_ Hn]; exact Hn].
  - intros before value after -> Hbefore.
    induction before as [|[o v] before IH].
    + simpl. by rewrite filter_cons_True.
    + rewrite fmap_cons in Hbefore. apply not_elem_of_cons in Hbefore as [Hne Hbefore].
      rewrite <- app_comm_cons, filter_cons_False
        by (intros Heq; simpl in Heq; by subst o).
      by apply IH.
Qed.

Lemma get_oid_attribute_first_match_witness :
  X509Metrics.get_oid_attribute
    [ (X509.COUNTRY_NAME, "US"); (X509.COMMON_NAME, "first");
      (X509.COMMON_NAME, "second") ] X509.COMMON_NAME
  = Sink.VStr "first".
Proof.
  apply (proj2 (get_oid_attribute_first_match
                  [ (X509.COUNTRY_NAME, "US"); (X509.COMMON_NAME, "first");
                    (X509.COMMON_NAME, "second") ] X509.COMMON_NAME)
           [(X509.COUNTRY_NAME, "US")] "first" [(X509.COMMON_NAME, "second")]);
    [reflexivity|].
  apply (bool_decide_unpack _). vm_compute. exact I.
Defined.

Section composer_facts.
Implicit Types (self : X509Metrics.t) (host : Host.t) (cert : X509.Certificate).

Lemma setitem_fresh {V : Type} (d : Py.dict V) (k : string) (v : V) :
  Py.contains d k = false → Py.setitem d k v = d ++ [(k, v)].
Proof.
  intros Hc. apply contains_false, getitem_None in Hc.
  induction d as [|[k0 v0] d IH]; simpl; [done|].
  simpl in Hc. apply not_elem_of_cons in Hc as [Hne Hc].
  rewrite decide_False by congruence. by rewrite IH.
Qed.

(** The loop that adds the custom labels, from any dictionary: with names
    that are new and distinct, it appends them all; in any case it keeps the
    keys distinct. *)
Lemma custom_loop_distinct (labels : list Label.t) (d : Py.dict Sink.value) :
  NoDup (Py.keys d ++ (Label.name <$> labels)) →
  fold_left
    (fun labels label =>
       if negb (Py.contains labels (Label.name label))
       then Py.setitem labels (Label.name label) (Sink.VStr (Label.value label))
       else labels)
    labels d
  = d ++ ((fun l => (Label.name l, Sink.VStr (Label.value l))) <$> labels).
Proof.
  revert d. induction labels as [|l labels IH]; intros d Hnd; simpl.
  - by rewrite app_nil_r.
  - assert (Py.contains d (Label.name l) = false) as Hc.
    { apply contains_false, getitem_None. intros Hin.
      apply NoDup_app in Hnd as (_ & Hdisj & _).
      apply (Hdisj _ Hin). simpl. apply list_elem_of_here. }
    rewrite Hc. simpl. rewrite setitem_fresh by done.
    rewrite IH.
    + by rewrite <- app_assoc.
    + unfold Py.keys. rewrite fmap_app. simpl. rewrite <- app_assoc. exact Hnd.
Qed.

Lemma custom_loop_keys (labels : list Label.t) (d : Py.dict Sink.value) :
  NoDup (Py.keys d) →
  NoDup (Py.keys
    (fold_left
       (fun labels label =>
          if negb (Py.contains labels (Label.name label))
          then Py.setitem labels (Label.name label) (Sink.VStr (Label.value label))
          else labels)
       labels d)).
Proof.
  revert d. induction labels as [|l labels IH]; intros d Hnd; simpl; [done|].
  apply IH. destruct (Py.contains d (Label.name l)) eqn:Hc; simpl; [done|].
  rewrite setitem_fresh by done. unfold Py.keys. rewrite fmap_app. simpl.
  apply NoDup_app. split; [done|]. split; [|apply NoDup_singleton].
  intros k Hk Hk'. apply list_elem_of_singleton in Hk' as ->.
  apply contains_false, getitem_None in Hc. by apply Hc.
Qed.

Lemma compose_labels_keys self host cert :
  NoDup (Py.keys (X509Metrics.compose_labels self host cert)).
Proof.
  unfold X509Metrics.compose_labels. apply custom_loop_keys.
  apply (bool_decide_unpack _). vm_compute. exact I.
Qed.

(** In a dictionary the values, read key by key, are the entries' values. *)
Lemma getitem_keys {V : Type} (d : Py.dict V) (f : V → string) :
  NoDup (Py.keys d) →
  (fun k => from_option f "" (Py.getitem d k)) <$> Py.keys d = (fun kv => f kv.2) <$> d.
Proof.
  intros Hnd. unfold Py.keys. rewrite <- list_fmap_compose.
  apply Forall_fmap_ext_1, Forall_forall. intros [k v] Hin. simpl.
  by rewrite (getitem_entry d k v Hnd Hin).
Qed.
End composer_facts.

Section recording_facts.
Implicit Types (self : X509Metrics.t) (w : World) (host : Host.t)
  (cert : X509.Certificate).

Lemma started_schema self :
  Spec.started self →
  Sink.labelnames (X509Metrics.not_valid_after self)
  = X509Metrics.fixed_labels
    ++ (Label.name <$> AppConfig.labels (X509Metrics.config self)).
Proof.
  intros (environ & config & startup & Hinit).
  by apply init_inv in Hinit as (interval & _ & ->).
Qed.

(** With a schema of distinct names the dictionary of a host is the fourteen
    fixed entries followed by one entry for each custom label. *)
Lemma compose_labels_distinct self host cert :
  NoDup (X509Metrics.fixed_labels
         ++ (Label.name <$> AppConfig.labels (X509Metrics.config self))) →
  Py.keys (X509Metrics.compose_labels self host cert)
  = X509Metrics.fixed_labels
    ++ (Label.name <$> AppConfig.labels (X509Metrics.config self))
  ∧ (fun kv => Sink.str kv.2) <$> X509Metrics.compose_labels self host cert
    = Spec.fixed_values host cert
      ++ (Label.value <$> AppConfig.labels (X509Metrics.config self)).
Proof.
  intros Hnd. unfold X509Metrics.compose_labels.
  rewrite custom_loop_distinct by exact Hnd.
  unfold Py.keys. rewrite !fmap_app, <- !list_fmap_compose. split.
  - f_equal.
  - f_equal.
Qed.

Lemma labels_of_distinct_schema self host cert :
  Spec.started self →
  NoDup (Sink.labelnames (X509Metrics.not_valid_after self)) →
  "self" ∉ Sink.labelnames (X509Metrics.not_valid_after self) →
  Sink.labels (X509Metrics.not_valid_after self)
              (X509Metrics.compose_labels self host cert)
  = Ok (Spec.fixed_values host cert
        ++ (Label.value <$> AppConfig.labels (X509Metrics.config self))).
Proof.
  intros Hs Hnd Hself. rewrite (started_schema self Hs) in Hnd, Hself.
  destruct (compose_labels_distinct self host cert Hnd) as [Hkeys Hvalues].
  unfold Sink.labels. rewrite (started_schema self Hs), <- Hkeys.
  rewrite <- Hkeys in Hself.
  rewrite bool_decide_eq_false_2 by exact Hself.
  rewrite bool_decide_eq_false_2 by (rewrite Hkeys; discriminate).
  rewrite bool_decide_eq_true_2 by reflexivity. f_equal.
  rewrite getitem_keys by apply compose_labels_keys. exact Hvalues.
Qed.

Lemma labels_need_distinct_schema self host cert series :
  Sink.labels (X509Metrics.not_valid_after self)
              (X509Metrics.compose_labels self host cert) = Ok series →
  NoDup (Sink.labelnames (X509Metrics.not_valid_after self))
  ∧ "self" ∉ Sink.labelnames (X509Metrics.not_valid_after self).
Proof.
  unfold Sink.labels. case_bool_decide as Hself; [discriminate|].
  case_bool_decide as Hempty; [discriminate|].
  case_bool_decide as Hperm; [|discriminate]. intros _.
  rewrite <- Hperm. split; [apply compose_labels_keys | exact Hself].
Qed.
End recording_facts.

(** X5. When the names of the label schema are distinct and none of them is
    [self], the series a fetched host is recorded under is its fourteen
    fixed values, [host] rendered as [name:port] first, followed by the
    values of the custom labels in configuration order: one value for every
    name of the schema. *)
Theorem recorded_series_of_fetched_host
    (self : X509Metrics.t) (host : Host.t) (cert : X509.Certificate)
    (Hs : Spec.started self)
    (Hschema : NoDup (Sink.labelnames (X509Metrics.not_valid_after self)))
    (Hself : "self" ∉ Sink.labelnames (X509Metrics.not_valid_after self)) :
  let series :=
    Spec.fixed_values host cert
    ++ (Label.value <$> AppConfig.labels (X509Metrics.config self)) in
  Sink.labels (X509Metrics.not_valid_after self)
              (X509Metrics.compose_labels self host cert) = Ok series
  ∧ head series = Some (Host.render host)
  ∧ length series
    = length (Sink.labelnames (X509Metrics.not_valid_after self)).
Proof.
  intros series. split; [by apply labels_of_distinct_schema|].
  split; [done|]. subst series.
  rewrite (started_schema self Hs), !length_app, !length_fmap. done.
Qed.

Lemma recorded_series_of_fetched_host_witness :
  Sink.labels (X509Metrics.not_valid_after Scenario.collector)
    (X509Metrics.compose_labels Scenario.collector Scenario.host_a
       Scenario.certificate)
  = Ok [ "a.example:443"; "US"; "None"; "None"; "None"; "None"; "Example CA";
         "77"; "None"; "None"; "None"; "None"; "example"; "None"; "prod" ].
Proof.
  refine (proj1 (recorded_series_of_fetched_host
                   Scenario.collector Scenario.host_a Scenario.certificate
                   scenario_started _ _)).
  - apply (bool_decide_unpack _). vm_compute. exact I.
  - apply (bool_decide_unpack _). vm_compute. exact I.
Defined.

Lemma fails_cases (self : X509Metrics.t) (w : World) (i : nat) (host : Host.t) :
  Spec.started self →
  Spec.fails self w i host = true ↔
  (∃ e, get_server_certificate w i host = Raise e)
  ∨ (∃ pem e, get_server_certificate w i host = Ok pem
              ∧ load_pem_x509_certificate w pem = Raise e)
  ∨ ¬ NoDup (Sink.labelnames (X509Metrics.not_valid_after self))
  ∨ "self" ∈ Sink.labelnames (X509Metrics.not_valid_after self).
Proof.
  intros Hs.
  pose proof (fetch_host_run self w i host Hs) as Hrun. unfold Spec.fails.
  destruct (get_server_certificate w i host) as [pem|e] eqn:Hg.
  2:{ rewrite Hrun. simpl. split; [eauto | done]. }
  destruct (load_pem_x509_certificate w pem) as [cert|e] eqn:Hp.
  2:{ rewrite Hrun. simpl. split; [|done]. intros _. right; left. eauto. }
  destruct (Sink.labels _ _) as [series|e] eqn:Hl; rewrite Hrun; simpl.
  - split; [done|].
    destruct (labels_need_distinct_schema self host cert series Hl) as [Hnd Hself].
    intros [[e He] | [(pem' & e & Hpem & He) | [Hdup | Hin]]].
    + discriminate He.
    + injection Hpem as <-. rewrite Hp in He. discriminate He.
    + by destruct Hdup.
    + by destruct Hself.
  - split; [|done]. intros _. right; right.
    destruct (decide ("self" ∈ Sink.labelnames (X509Metrics.not_valid_after self)))
      as [Hin|Hself]; [by right|].
    left. intros Hnd.
    rewrite (labels_of_distinct_schema self host cert Hs Hnd Hself) in Hl.
    discriminate Hl.
Qed.




(** X6. The fetch of a host fails in exactly four cases: the connection
    raises, the certificate parser raises, two names of the label schema are
    equal (a custom label repeated, or named like a fixed label), or a custom
    label is named [self]. *)
Theorem host_fails_iff
    (self : X509Metrics.t) (w : World) (i : nat) (host : Host.t)
    (Hs : Spec.started self) :
  Spec.fails self w i host = true ↔
  (∃ e, get_server_certificate w i host = Raise e)
  ∨ (∃ pem e, get_server_certificate w i host = Ok pem
              ∧ load_pem_x509_certificate w pem = Raise e)
  ∨ ¬ NoDup (Sink.labelnames (X509Metrics.not_valid_after self))
  ∨ "self" ∈ Sink.labelnames (X509Metrics.not_valid_after self).
Proof. by apply fails_cases. Qed.

Lemma host_fails_iff_witness :
  Spec.fails Scenario.collector (Scenario.world 1500) 1 Scenario.host_b = true.
Proof.
  apply (host_fails_iff Scenario.collector (Scenario.world 1500) 1
           Scenario.host_b scenario_started).
  left. exists OSError. reflexivity.
Defined.

Section counting_facts.
Implicit Types (self : X509Metrics.t) (w : World) (hosts : list Host.t).

Lemma failures_bounds self w i hosts :
  (Spec.failures self w i hosts ≤ length hosts)%nat
  ∧ (Spec.failures self w i hosts = length hosts ↔
     ∀ k host, hosts !! k = Some host → Spec.fails self w (i + k) host = true)
  ∧ (Spec.failures self w i hosts = O ↔
     ∀ k host, hosts !! k = Some host → Spec.fails self w (i + k) host = false).
Proof.
  revert i. induction hosts as [|h rest IH]; intros i.
  - unfold Spec.failures. simpl. split; [lia|]. split; (split; [by intros _ k host Hk | done]).
  - rewrite failures_cons. destruct (IH (S i)) as (Hle & Hall & Hnone). simpl.
    assert (∀ b : bool,
              (∀ k host, (h :: rest) !! k = Some host →
                         Spec.fails self w (i + k) host = b) ↔
              Spec.fails self w i h = b
              ∧ ∀ k host, rest !! k = Some host →
                          Spec.fails self w (S i + k) host = b) as Hsplit.
    { intros b. split.
      - intros Hk. split.
        + specialize (Hk 0%nat h eq_refl). by rewrite Nat.add_0_r in Hk.
        + intros k host Hr. specialize (Hk (S k) host Hr).
          by replace (i + S k)%nat with (S i + k)%nat in Hk by lia.
      - intros [Hh Hr] [|k] host Hk; simpl in Hk.
        + injection Hk as <-. by rewrite Nat.add_0_r.
        + replace (i + S k)%nat with (S i + k)%nat by lia. by apply Hr. }
    rewrite (Hsplit true), (Hsplit false), <- Hall, <- Hnone.
    destruct (Spec.fails self w i h); split; try lia; split; split;
      try (intros [? ?]); try split; try done; try lia.
Qed.

Lemma all_fail_trace self w i hosts :
  Spec.started self →
  (∀ k host, hosts !! k = Some host → Spec.fails self w (i + k) host = true) →
  Spec.turns_trace self w i hosts = (fun h => Spec.host_flag self h 1) <$> hosts.
Proof.
  intros Hs. revert i. induction hosts as [|h rest IH]; intros i Hall; [done|].
  simpl. rewrite turn_trace_run by done.
  pose proof (Hall 0%nat h eq_refl) as Hh. rewrite Nat.add_0_r in Hh.
  rewrite Hh. simpl. f_equal. apply IH. intros k host Hk.
  replace (S i + k)%nat with (i + S k)%nat by lia. by apply Hall.
Qed.
End counting_facts.

(** X7. After a cycle the aggregate gauge reads a number between 0 and the
    number of configured hosts: it reads the number of hosts exactly when
    the fetch of every host failed, and 0 exactly when none failed. *)
Theorem read_errors_between_zero_and_hosts
    (self : X509Metrics.t) (w : World)
    (store : gmap (string * list string) Z) (Hs : Spec.started self) :
  let hosts := AppConfig.hosts (X509Metrics.config self) in
  ∃ n : nat,
    Sink.replay store (X509Metrics.fetch self w).1
      !! (Sink.fullname (X509Metrics.read_errors self), []) = Some (Z.of_nat n)
    ∧ (n ≤ length hosts)%nat
    ∧ (n = length hosts ↔
       ∀ k host, hosts !! k = Some host → Spec.fails self w k host = true)
    ∧ (n = O ↔
       ∀ k host, hosts !! k = Some host → Spec.fails self w k host = false).
Proof.
  intros hosts. exists (Spec.failures self w 0 hosts). split.
  - rewrite fetch_run by done.
    apply (replay_last store _ (Spec.read_errors_sample self _)).
  - apply (failures_bounds self w 0 hosts).
Qed.

Lemma read_errors_between_zero_and_hosts_witness :
  ∃ n : nat,
    Sink.replay ∅ (X509Metrics.fetch Scenario.collector (Scenario.world 1500)).1
      !! ("x509_read_errors", []) = Some (Z.of_nat n)
    ∧ (n ≤ 3)%nat.
Proof.
  destruct (read_errors_between_zero_and_hosts
              Scenario.collector (Scenario.world 1500) ∅ scenario_started)
    as (n & Hn & Hle & _).
  exists n. split; [exact Hn | exact Hle].
Defined.

(** X8. When two names of the label schema are equal, no certificate is ever
    recorded: whatever the hosts answer, a cycle writes the error flag 1 of
    every host, in order, then the aggregate with the number of hosts, and
    nothing else. *)
Theorem colliding_label_fails_every_host
    (self : X509Metrics.t) (w : World) (Hs : Spec.started self)
    (Hdup : ¬ NoDup (Sink.labelnames (X509Metrics.not_valid_after self))) :
  let hosts := AppConfig.hosts (X509Metrics.config self) in
  X509Metrics.fetch self w
  = ( ((fun h => Spec.host_flag self h 1) <$> hosts)
      ++ [Spec.read_errors_sample self (Z.of_nat (length hosts))],
      Ok tt ).
Proof.
  intros hosts.
  assert (∀ k host, hosts !! k = Some host →
                    Spec.fails self w (0 + k) host = true) as Hall.
  { intros k host _. apply fails_cases; [done|]. by right; right; left. }
  rewrite fetch_run by done. fold hosts.
  rewrite (all_fail_trace self w 0%nat hosts Hs Hall).
  by rewrite (proj2 (proj1 (proj2 (failures_bounds self w 0%nat hosts))) Hall).
Qed.

Lemma colliding_label_fails_every_host_witness :
  X509Metrics.fetch Scenario.clash_collector (Scenario.world 1500)
  = ( [ Spec.host_flag Scenario.clash_collector Scenario.host_a 1;
        Spec.host_flag Scenario.clash_collector Scenario.host_c 1;
        Spec.read_errors_sample Scenario.clash_collector 2 ],
      Ok tt ).
Proof.
  refine (colliding_label_fails_every_host
            Scenario.clash_collector (Scenario.world 1500) clash_started _).
  apply (bool_decide_unpack _). vm_compute. exact I.
Defined.

(** X9. A whole cycle, seen from a host every fetch of which fails in it
    (the host may be listed several times): no series of the three
    per-certificate gauges that carries its [name:port] is written, so each
    keeps the reading it had before the cycle, and its error flag reads 1
    after the cycle. *)
Theorem failed_host_stale_over_cycle
    (self : X509Metrics.t) (w : World)
    (store : gmap (string * list string) Z) (host : Host.t) (i : nat)
    (Hs : Spec.started self)
    (Hlisted : AppConfig.hosts (X509Metrics.config self) !! i = Some host)
    (Hall : ∀ k h,
        AppConfig.hosts (X509Metrics.config self) !! k = Some h →
        Host.render h = Host.render host →
        Spec.fails self w k h = true) :
  let after := Sink.replay store (X509Metrics.fetch self w).1 in
  (∀ g series,
      g ∈ [ X509Metrics.not_valid_after self;
            X509Metrics.not_valid_before self;
            X509Metrics.expired self ] →
      head series = Some (Host.render host) →
      after !! (Sink.fullname g, series) = store !! (Sink.fullname g, series))
  ∧ after !! (Sink.fullname (X509Metrics.host_read_errors self),
              [Host.render host]) = Some 1.
Proof.
  intros after.
  destruct (cycle_failed_host self w store host Hs Hall) as [Hkeep Hflag].
  split; [exact Hkeep|]. apply Hflag. by exists i, host.
Qed.

Lemma failed_host_stale_over_cycle_witness :
  Sink.replay ∅ (X509Metrics.fetch Scenario.collector (Scenario.world 1500)).1
    !! ("x509_host_read_errors", ["b.example:443"]) = Some 1.
Proof.
  refine (proj2 (failed_host_stale_over_cycle
                   Scenario.collector (Scenario.world 1500) ∅ Scenario.host_b 1
                   scenario_started eq_refl _)).
  intros k h Hk Hr.
  destruct k as [|[|[|k]]]; simpl in Hk; try discriminate Hk;
    injection Hk as <-; first [reflexivity | discriminate Hr].
Defined.

Section loop_facts.
Implicit Types (self : X509Metrics.t) (w : World) (os : Process)
  (store : gmap (string * list string) Z) (trace : list Sink.Sample).

Lemma sleep_accepted (platform : result unit) (seconds : Z) :
  0 ≤ seconds ≤ 9223372036 → Py.sleep platform seconds = platform.
Proof.
  intros Hs. unfold Py.sleep.
  rewrite bool_decide_eq_false_2 by lia. by rewrite bool_decide_eq_false_2 by lia.
Qed.

Lemma sleep_negative (platform : result unit) (seconds : Z) :
  -9223372036 ≤ seconds < 0 → Py.sleep platform seconds = Raise ValueError.
Proof.
  intros Hs. unfold Py.sleep.
  rewrite bool_decide_eq_false_2 by lia. by rewrite bool_decide_eq_true_2 by lia.
Qed.

Lemma sleep_overflow (platform : result unit) (seconds : Z) :
  9223372036 < Z.abs seconds → Py.sleep platform seconds = Raise OverflowError.
Proof. intros Hs. unfold Py.sleep. by rewrite bool_decide_eq_true_2. Qed.

(** While the sleep returns, the loop goes on, cycle after cycle. *)
Lemma run_metrics_loop_run self os (worlds : nat → World) cycle fuel :
  Spec.started self →
  (∀ c, Py.sleep (platform_sleep os c) (X509Metrics.polling_interval_seconds self)
        = Ok tt) →
  X509Metrics.run_metrics_loop self os worlds cycle fuel
  = (Spec.cycles_trace self worlds cycle fuel, Ok tt).
Proof.
  intros Hs Hsleep. revert cycle.
  induction fuel as [|fuel IH]; intros cycle; [done|].
  simpl. rewrite (fetch_run self (worlds cycle) Hs), Hsleep, IH. simpl.
  by rewrite <- app_assoc.
Qed.

(** When the sleep raises, the loop stops there, after one cycle. *)
Lemma run_metrics_loop_stops self os (worlds : nat → World) cycle fuel e :
  Spec.started self →
  Py.sleep (platform_sleep os cycle) (X509Metrics.polling_interval_seconds self)
  = Raise e →
  X509Metrics.run_metrics_loop self os worlds cycle (S fuel)
  = ((X509Metrics.fetch self (worlds cycle)).1, Raise e).
Proof.
  intros Hs Hsleep. simpl.
  rewrite (fetch_run self (worlds cycle) Hs), Hsleep. simpl.
  by rewrite app_nil_r.
Qed.

Lemma filter_none {A} (P : A → Prop) `{∀ x, Decision (P x)} (l : list A) :
  (∀ x, x ∈ l → ¬ P x) → filter P l = [].
Proof.
  induction l as [|x l IH]; intros Hl; [done|].
  rewrite filter_cons_False by (apply Hl, list_elem_of_here).
  apply IH. intros y Hy. by apply Hl, list_elem_of_further.
Qed.

(** Of the samples of a cycle, one belongs to the aggregate gauge. *)
Lemma cycle_aggregate_once self w :
  Spec.started self →
  length (Spec.samples_of (X509Metrics.read_errors self)
            (X509Metrics.fetch self w).1) = 1%nat.
Proof.
  intros Hs. rewrite fetch_run by done. simpl. unfold Spec.samples_of.
  rewrite filter_app, filter_none.
  - by rewrite filter_cons_True.
  - intros x Hx. apply (turns_trace_metrics self w 0%nat _ x Hs) in Hx.
    destruct (started_gauges self Hs) as (_ & _ & _ & _ & _ & _ & _ & ->).
    intros Heq. rewrite Heq, !elem_of_cons, elem_of_nil in Hx.
    destruct Hx as [Hx | [Hx | [Hx | [Hx | []]]]]; discriminate Hx.
Qed.

Lemma cycles_aggregate_count self (worlds : nat → World) cycle fuel :
  Spec.started self →
  length (Spec.samples_of (X509Metrics.read_errors self)
            (Spec.cycles_trace self worlds cycle fuel)) = fuel.
Proof.
  intros Hs. revert cycle. induction fuel as [|fuel IH]; intros cycle; [done|].
  pose proof (cycle_aggregate_once self (worlds cycle) Hs) as Hone.
  simpl. unfold Spec.samples_of in *. by rewrite filter_app, length_app, IH, Hone.
Qed.

(** Where a trace writes a series, the reading it leaves does not depend on
    the store it started from. *)
Lemma replay_written store store' trace (key : string * list string) :
  (∃ x, x ∈ trace ∧ (Sink.metric x, Sink.series x) = key) →
  Sink.replay store trace !! key = Sink.replay store' trace !! key.
Proof.
  revert store store'.
  induction trace as [|y trace IH]; intros store store' [x [Hx Hkey]].
  - by apply elem_of_nil in Hx.
  - simpl.
    destruct (decide (Exists (fun z => (Sink.metric z, Sink.series z) = key) trace))
      as [Hex|Hnone].
    + apply IH. apply Exists_exists in Hex as (z & Hz & Hzk). eauto.
    + assert (∀ z, z ∈ trace → (Sink.metric z, Sink.series z) ≠ key) as Hfree.
      { intros z Hz Hzk. apply Hnone, Exists_exists. eauto. }
      rewrite !replay_frame by done.
      apply elem_of_cons in Hx as [->|Hx]; [|by destruct (Hfree x Hx)].
      unfold Sink.record. by rewrite Hkey, !lookup_insert_eq.
Qed.

(** Replaying a trace a second time changes nothing. *)
Lemma replay_twice store trace :
  Sink.replay (Sink.replay store trace) trace = Sink.replay store trace.
Proof.
  apply map_eq. intros key.
  destruct (decide (Exists (fun z => (Sink.metric z, Sink.series z) = key) trace))
    as [Hex|Hnone].
  - apply replay_written. apply Exists_exists in Hex as (z & Hz & Hzk). eauto.
  - apply replay_frame. intros z Hz Hzk. apply Hnone, Exists_exists. eauto.
Qed.

(** The [try] body sees of the world only the answer of the connection, the
    answer of the parser on it, and on which side of the clock the expiry
    of the certificate lies. *)
Lemma fetch_host_ext self w w' i host :
  get_server_certificate w i host = get_server_certificate w' i host →
  (∀ pem,
      get_server_certificate w i host = Ok pem →
      load_pem_x509_certificate w pem = load_pem_x509_certificate w' pem
      ∧ ∀ cert,
          load_pem_x509_certificate w pem = Ok cert →
          (X509.not_valid_after cert <? now w i)
          = (X509.not_valid_after cert <? now w' i)) →
  X509Metrics.fetch_host self w i host = X509Metrics.fetch_host self w' i host.
Proof.
  intros Hg Hrest. unfold X509Metrics.fetch_host. rewrite <- Hg.
  destruct (get_server_certificate w i host) as [pem|e]; [|done].
  destruct (Hrest pem eq_refl) as [Hl Hn]. simpl. rewrite <- Hl.
  destruct (load_pem_x509_certificate w pem) as [cert|e]; [|done].
  simpl. by rewrite (Hn cert eq_refl).
Qed.

Lemma loop_ext self w w' i hosts error_count :
  (∀ k host,
      hosts !! k = Some host →
      X509Metrics.fetch_host self w (i + k) host
      = X509Metrics.fetch_host self w' (i + k) host) →
  X509Metrics.loop self w i hosts error_count
  = X509Metrics.loop self w' i hosts error_count.
Proof.
  revert i error_count.
  induction hosts as [|host rest IH]; intros i error_count Hsame; [done|].
  simpl. unfold X509Metrics.poll.
  pose proof (Hsame 0%nat host eq_refl) as Hhead. rewrite Nat.add_0_r in Hhead.
  rewrite Hhead.
  destruct (try_except _ _) as [t [ec|e]]; [|done]. simpl.
  rewrite IH; [done|]. intros k h Hk.
  replace (S i + k)%nat with (i + S k)%nat by lia. by apply Hsame.
Qed.

(** Two worlds that answer a cycle alike give the same cycle. *)
Lemma fetch_ext self w w' :
  Spec.same_observations (AppConfig.hosts (X509Metrics.config self)) w w' →
  X509Metrics.fetch self w = X509Metrics.fetch self w'.
Proof.
  intros Hsame. unfold X509Metrics.fetch.
  rewrite (loop_ext self w w' 0%nat); [done|].
  intros k host Hk. destruct (Hsame k host Hk) as [Hg Hrest].
  by apply fetch_host_ext.
Qed.
End loop_facts.

(** X10. The metrics loop can stop only in its sleep. With a polling
    interval between 0 and 9223372036 seconds and a platform whose sleep
    returns, any number of turns complete, each writing one cycle and
    setting the aggregate gauge once. With a negative interval the loop
    stops after its first cycle on [ValueError], with an interval beyond
    9223372036 seconds either way on [OverflowError], and with a platform
    whose first sleep raises on that exception. *)
Theorem metrics_loop_stops_only_in_sleep
    (self : X509Metrics.t) (os : Process) (worlds : nat → World) (fuel : nat)
    (Hs : Spec.started self) :
  let interval := X509Metrics.polling_interval_seconds self in
  let first := (X509Metrics.fetch self (worlds 0%nat)).1 in
  (0 ≤ interval ≤ 9223372036 →
   (∀ cycle, platform_sleep os cycle = Ok tt) →
   X509Metrics.run_metrics_loop self os worlds 0 fuel
   = (Spec.cycles_trace self worlds 0 fuel, Ok tt)
   ∧ length (Spec.samples_of (X509Metrics.read_errors self)
               (X509Metrics.run_metrics_loop self os worlds 0 fuel).1) = fuel)
  ∧ (-9223372036 ≤ interval < 0 →
     X509Metrics.run_metrics_loop self os worlds 0 (S fuel)
     = (first, Raise ValueError))
  ∧ (9223372036 < Z.abs interval →
     X509Metrics.run_metrics_loop self os worlds 0 (S fuel)
     = (first, Raise OverflowError))
  ∧ (∀ e, 0 ≤ interval ≤ 9223372036 →
          platform_sleep os 0%nat = Raise e →
          X509Metrics.run_metrics_loop self os worlds 0 (S fuel)
          = (first, Raise e)).
Proof.
  intros interval first. split; [|split; [|split]].
  - intros Hrange Hplatform.
    assert (∀ c, Py.sleep (platform_sleep os c) interval = Ok tt) as Hsleep
      by (intros c; by rewrite sleep_accepted).
    rewrite (run_metrics_loop_run self os worlds 0 fuel Hs Hsleep).
    split; [done|]. by apply cycles_aggregate_count.
  - intros Hneg. apply run_metrics_loop_stops; [done|]. by apply sleep_negative.
  - intros Hbig. apply run_metrics_loop_stops; [done|]. by apply sleep_overflow.
  - intros e Hrange He. apply run_metrics_loop_stops; [done|].
    by rewrite sleep_accepted.
Qed.

Lemma metrics_loop_stops_only_in_sleep_witness :
  (X509Metrics.run_metrics_loop Scenario.collector Spec.bare_process
     (fun cycle => Scenario.world (1500 + 500 * Z.of_nat cycle)) 0 3).2 = Ok tt.
Proof.
  destruct (proj1 (metrics_loop_stops_only_in_sleep Scenario.collector
                     Spec.bare_process
                     (fun cycle => Scenario.world (1500 + 500 * Z.of_nat cycle)) 3
                     scenario_started))
    as [Hrun _]; [simpl; lia | reflexivity |].
  rewrite Hrun. reflexivity.
Defined.

(** X11. Idempotence: when the second cycle is answered like the first (for
    every listed host the connection and the parser answer the same, and no
    certificate passes its expiry between the two cycles), two turns of the
    metrics loop leave every gauge of the sink with the reading one turn
    leaves. *)
Theorem unchanged_world_unchanged_gauges
    (self : X509Metrics.t) (os : Process) (worlds : nat → World)
    (store : gmap (string * list string) Z)
    (Hs : Spec.started self)
    (Hsame : Spec.same_observations
               (AppConfig.hosts (X509Metrics.config self))
               (worlds 0%nat) (worlds 1%nat)) :
  Sink.replay store (X509Metrics.run_metrics_loop self os worlds 0 2).1
  = Sink.replay store (X509Metrics.run_metrics_loop self os worlds 0 1).1.
Proof.
  simpl. rewrite <- (fetch_ext self (worlds 0%nat) (worlds 1%nat) Hsame).
  rewrite (fetch_run self (worlds 0%nat) Hs).
  set (trace := _ ++ [_]).
  destruct (Py.sleep (platform_sleep os 0%nat) _) as [[]|e]; simpl; [|done].
  destruct (Py.sleep (platform_sleep os 1%nat) _) as [[]|e]; simpl;
    rewrite ?app_nil_r, replay_app; apply replay_twice.
Qed.

Lemma unchanged_world_unchanged_gauges_witness :
  Sink.replay ∅ (X509Metrics.run_metrics_loop Scenario.collector
                   Spec.bare_process
                   (fun cycle => Scenario.world (1500 + Z.of_nat cycle)) 0 2).1
  = Sink.replay ∅ (X509Metrics.run_metrics_loop Scenario.collector
                     Spec.bare_process
                     (fun cycle => Scenario.world (1500 + Z.of_nat cycle)) 0 1).1.
Proof.
  apply (unchanged_world_unchanged_gauges Scenario.collector Spec.bare_process
           (fun cycle => Scenario.world (1500 + Z.of_nat cycle)) ∅
           scenario_started).
  intros k host Hk. split; [reflexivity|]. intros pem Hpem.
  split; [reflexivity|]. intros cert Hcert. simpl in Hcert.
  injection Hcert as <-. reflexivity.
Defined.

(* ===================================================================== *)
(** * Further properties: the entry point                                 *)
(* ===================================================================== *)

Section main_facts.
Implicit Types (os : Process) (environ : Py.dict string) (worlds : nat → World).

(** [main], step by step. *)
Lemma main_run os environ worlds fuel :
  main os environ worlds fuel =
  match AppConfig.init (read_config os (Spec.config_path environ)) environ with
  | Raise e => ([], Raise e)
  | Ok config =>
      match AppConfig.metrics config !! "port" with
      | None => ([], Raise KeyError)
      | Some port =>
          match X509Metrics.init environ config with
          | (startup, Raise e) => (startup, Raise e)
          | (startup, Ok self) =>
              match start_http_server os port with
              | Raise e => (startup, Raise e)
              | Ok _ =>
                  ( startup
                    ++ (X509Metrics.run_metrics_loop self os worlds 0 fuel).1,
                    (X509Metrics.run_metrics_loop self os worlds 0 fuel).2 )
              end
          end
      end
  end.
Proof.
  unfold main, Spec.config_path, metrics_item.
  destruct (AppConfig.init _ environ) as [config|e]; [|done]. simpl.
  destruct (AppConfig.metrics config !! "port") as [port|]; [|done]. simpl.
  destruct (X509Metrics.init environ config) as [startup [self|e]]; [|done].
  simpl. destruct (start_http_server os port) as [[]|e]; simpl.
  - by destruct (X509Metrics.run_metrics_loop self os worlds 0 fuel) as [t r].
  - by rewrite ?app_nil_r.
Qed.
End main_facts.

(** X12. When the configuration resolves and holds a port and a polling
    interval between 0 and 9223372036 seconds, every label name is one the
    client library accepts, the metrics server can listen and the
    platform's sleep returns, [main] starts: it writes the build-info sample
    once, then runs the metrics loop on the collector built for that
    configuration, turn after turn, never raising. *)
Theorem main_starts_and_runs
    (os : Process) (environ : Py.dict string) (worlds : nat → World)
    (fuel : nat) (config : AppConfig.t) (port interval : Z)
    (Hconfig : AppConfig.init (read_config os (Spec.config_path environ)) environ
               = Ok config)
    (Hport : AppConfig.metrics config !! "port" = Some port)
    (Hinterval : AppConfig.metrics config !! "pollingInterval" = Some interval)
    (Hrange : 0 ≤ interval ≤ 9223372036)
    (Hnames : ∀ l, l ∈ AppConfig.labels config →
                   Sink.valid_labelname (Label.name l) = true)
    (Hlisten : start_http_server os port = Ok tt)
    (Hsleep : ∀ cycle, platform_sleep os cycle = Ok tt) :
  ∃ self build_info,
    X509Metrics.init environ config = ([build_info], Ok self)
    ∧ Sink.metric build_info = "x509_build_info"
    ∧ Sink.reading build_info = 1
    ∧ X509Metrics.polling_interval_seconds self = interval
    ∧ main os environ worlds fuel
      = (build_info :: Spec.cycles_trace self worlds 0 fuel, Ok tt).
Proof.
  pose proof (init_run environ config) as Hinit. rewrite Hinterval in Hinit.
  assert (forallb Sink.valid_labelname
            (X509Metrics.fixed_labels ++ (Label.name <$> AppConfig.labels config))
          = true) as Hvalid.
  { rewrite forallb_app. apply andb_true_iff. split; [reflexivity|].
    apply forallb_forall. intros name Hin. apply list_elem_of_In in Hin.
    apply list_elem_of_fmap in Hin as (l & -> & Hl). by apply Hnames. }
  rewrite Hvalid in Hinit.
  eexists _, _. split; [exact Hinit|]. split; [done|]. split; [done|].
  split; [done|].
  rewrite main_run, Hconfig, Hport, Hinit, Hlisten.
  rewrite run_metrics_loop_run; [done | by exists environ, config; eexists |].
  intros c. by rewrite sleep_accepted.
Qed.

Lemma main_starts_and_runs_witness :
  ∃ trace, main Spec.bare_process [("X509_CONFIG_HOST_1", "a.example:443")]
             (fun _ => Scenario.world 1500) 2 = (trace, Ok tt).
Proof.
  destruct (AppConfig.init Absent [("X509_CONFIG_HOST_1", "a.example:443")])
    as [config|e] eqn:Hconfig; [|vm_compute in Hconfig; discriminate Hconfig].
  assert (AppConfig.metrics config !! "port" = Some 8932
          ∧ AppConfig.metrics config !! "pollingInterval" = Some 43200
          ∧ AppConfig.labels config = [])
    as (Hport & Hinterval & Hlabels).
  { vm_compute in Hconfig. injection Hconfig as <-. repeat split; reflexivity. }
  destruct (main_starts_and_runs
              Spec.bare_process [("X509_CONFIG_HOST_1", "a.example:443")]
              (fun _ => Scenario.world 1500) 2 config 8932 43200
              Hconfig Hport Hinterval)
    as (self & build_info & _ & _ & _ & _ & Hmain);
    [lia | | reflexivity | reflexivity |].
  - intros l Hl. rewrite Hlabels in Hl. by apply elem_of_nil in Hl.
  - eexists. exact Hmain.
Defined.

(** X13. Start-up failures leave [main] before any cycle runs: an exception
    of the resolver, with nothing written; [KeyError] when the resolved
    metrics lack the port or the polling interval, with nothing written;
    [ValueError] when a label name is one the client library refuses, with
    nothing written; and the exception of the metrics server when it cannot
    listen, the build-info sample being then the only thing written. *)
Theorem main_startup_failures
    (os : Process) (environ : Py.dict string) (worlds : nat → World)
    (fuel : nat) :
  (∀ e, AppConfig.init (read_config os (Spec.config_path environ)) environ
        = Raise e →
        main os environ worlds fuel = ([], Raise e))
  ∧ (∀ config,
        AppConfig.init (read_config os (Spec.config_path environ)) environ
        = Ok config →
        AppConfig.metrics config !! "port" = None
        ∨ AppConfig.metrics config !! "pollingInterval" = None →
        main os environ worlds fuel = ([], Raise KeyError))
  ∧ (∀ config port interval l,
        AppConfig.init (read_config os (Spec.config_path environ)) environ
        = Ok config →
        AppConfig.metrics config !! "port" = Some port →
        AppConfig.metrics config !! "pollingInterval" = Some interval →
        l ∈ AppConfig.labels config →
        Sink.valid_labelname (Label.name l) = false →
        main os environ worlds fuel = ([], Raise ValueError))
  ∧ (∀ config port interval e,
        AppConfig.init (read_config os (Spec.config_path environ)) environ
        = Ok config →
        AppConfig.metrics config !! "port" = Some port →
        AppConfig.metrics config !! "pollingInterval" = Some interval →
        (∀ l, l ∈ AppConfig.labels config →
              Sink.valid_labelname (Label.name l) = true) →
        start_http_server os port = Raise e →
        ∃ build_info,
          Sink.metric build_info = "x509_build_info"
          ∧ main os environ worlds fuel = ([build_info], Raise e)).
Proof.
  split; [|split; [|split]].
  - intros e He. by rewrite main_run, He.
  - intros config Hc Hmissing. rewrite main_run, Hc.
    destruct (AppConfig.metrics config !! "port") as [port|] eqn:Hp; [|done].
    destruct Hmissing as [Hm|Hm]; [done|].
    by rewrite init_run, Hm.
  - intros config port interval l Hc Hp Hi Hl Hbad.
    rewrite main_run, Hc, Hp, init_run, Hi.
    assert (forallb Sink.valid_labelname
              (X509Metrics.fixed_labels
               ++ (Label.name <$> AppConfig.labels config)) = false) as ->; [|done].
    apply not_true_iff_false. intros Hall.
    rewrite forallb_forall in Hall.
    rewrite (Hall (Label.name l)) in Hbad; [discriminate|].
    apply list_elem_of_In, elem_of_app. right. apply list_elem_of_fmap. eauto.
  - intros config port interval e Hc Hp Hi Hnames Hl.
    assert (forallb Sink.valid_labelname
              (X509Metrics.fixed_labels
               ++ (Label.name <$> AppConfig.labels config)) = true) as Hvalid.
    { rewrite forallb_app. apply andb_true_iff. split; [reflexivity|].
      apply forallb_forall. intros name Hin. apply list_elem_of_In in Hin.
      apply list_elem_of_fmap in Hin as (l & -> & Hin). by apply Hnames. }
    eexists. split; [|by rewrite main_run, Hc, Hp, init_run, Hi, Hvalid, Hl].
    done.
Qed.

Lemma main_startup_failures_witness :
  main Spec.bare_process [("X509_CONFIG_LABEL_TEAM-A", "ops")]
    (fun _ => Scenario.world 1500) 5 = ([], Raise ValueError).
Proof.
  destruct (AppConfig.init Absent [("X509_CONFIG_LABEL_TEAM-A", "ops")])
    as [config|e] eqn:Hconfig; [|vm_compute in Hconfig; discriminate Hconfig].
  assert (AppConfig.metrics config !! "port" = Some 8932
          ∧ AppConfig.metrics config !! "pollingInterval" = Some 43200
          ∧ AppConfig.labels config = [Label.mk "team-a" "ops"])
    as (Hport & Hinterval & Hlabels).
  { vm_compute in Hconfig. injection Hconfig as <-. repeat split; reflexivity. }
  apply (proj1 (proj2 (proj2 (main_startup_failures
                  Spec.bare_process [("X509_CONFIG_LABEL_TEAM-A", "ops")]
                  (fun _ => Scenario.world 1500) 5)))
           config 8932 43200 (Label.mk "team-a" "ops") Hconfig Hport Hinterval).
  - rewrite Hlabels. apply list_elem_of_here.
  - reflexivity.
Defined.

(** X14. A document whose [metrics] mapping leaves out the port or the
    polling interval stops [main] with [KeyError] before anything is written,
    even when the environment supplies both settings: the mapping of the
    document has replaced them. *)
Theorem incomplete_file_metrics_stop_main
    (os : Process) (environ : Py.dict string) (worlds : nat → World)
    (fuel : nat) (settings : Settings) (file_metrics : gmap string Z) (p q : Z)
    (Hread : read_config os (Spec.config_path environ) = Loaded settings)
    (Hfile : s_metrics settings = Some file_metrics)
    (Hmissing : file_metrics !! "port" = None
                ∨ file_metrics !! "pollingInterval" = None)
    (Hport : int_of (dict_get environ AppConfig.PORT_VAR "8932") = Ok p)
    (Hpoll : int_of (dict_get environ AppConfig.POLLING_VAR "43200") = Ok q) :
  main os environ worlds fuel = ([], Raise KeyError).
Proof.
  rewrite main_run, Hread.
  rewrite (init_Ok (Loaded settings) environ p q Hport Hpoll eq_refl).
  unfold Spec.declared_metrics. simpl. rewrite Hfile. simpl.
  destruct (file_metrics !! "port") as [port|] eqn:Hp; [|done].
  destruct Hmissing as [Hm|Hm]; [done|].
  rewrite init_run. simpl. by rewrite Hm.
Qed.

Lemma incomplete_file_metrics_stop_main_witness :
  main
    {| read_config := fun _ =>
         Loaded {| s_metrics := Some (<["port" := 9000]> ∅);
                   s_hosts := None; s_labels := None |};
       start_http_server := fun _ => Ok tt;
       platform_sleep := fun _ => Ok tt |}
    [(AppConfig.POLLING_VAR, "60")] (fun _ => Scenario.world 1500) 1
  = ([], Raise KeyError).
Proof.
  apply (incomplete_file_metrics_stop_main _ _ _ _
           {| s_metrics := Some (<["port" := 9000]> ∅);
              s_hosts := None; s_labels := None |}
           (<["port" := 9000]> ∅) 8932 60);
    [reflexivity | reflexivity | right; reflexivity | reflexivity | reflexivity].
Defined.

Section composer_more.
Implicit Types (self : X509Metrics.t) (host : Host.t) (cert : X509.Certificate).

(** The loop that adds the custom labels never changes an entry that is
    already in the dictionary. *)
Lemma custom_loop_keeps (labels : list Label.t) (d : Py.dict Sink.value)
    (k : string) (v : Sink.value) :
  Py.getitem d k = Some v →
  Py.getitem
    (fold_left
       (fun labels label =>
          if negb (Py.contains labels (Label.name label))
          then Py.setitem labels (Label.name label) (Sink.VStr (Label.value label))
          else labels)
       labels d) k = Some v.
Proof.
  revert d. induction labels as [|l labels IH]; intros d Hd; [done|].
  simpl. apply IH.
  destruct (Py.contains d (Label.name l)) eqn:Hc; simpl; [done|].
  rewrite getitem_setitem_ne; [done|].
  intros Heq. apply contains_false in Hc. rewrite Heq in Hc. congruence.
Qed.

(** A custom label whose name is new enters the dictionary with the value of
    its first declaration. *)
Lemma custom_loop_first (labels : list Label.t) (d : Py.dict Sink.value)
    (l : Label.t) (before after : list Label.t) :
  labels = before ++ l :: after →
  Label.name l ∉ Py.keys d →
  Label.name l ∉ (Label.name <$> before) →
  Py.getitem
    (fold_left
       (fun labels label =>
          if negb (Py.contains labels (Label.name label))
          then Py.setitem labels (Label.name label) (Sink.VStr (Label.value label))
          else labels)
       labels d) (Label.name l) = Some (Sink.VStr (Label.value l)).
Proof.
  intros -> . revert d. induction before as [|b before IH]; intros d Hd Hb.
  - simpl. apply custom_loop_keeps.
    assert (Py.contains d (Label.name l) = false) as Hc
      by (by apply contains_false, getitem_None).
    rewrite Hc. simpl. rewrite setitem_fresh by done.
    clear Hc. induction d as [|[k0 v0] d IHd]; simpl.
    + by rewrite decide_True.
    + simpl in Hd. apply not_elem_of_cons in Hd as [Hne Hd].
      rewrite decide_False by congruence. by apply IHd.
  - rewrite fmap_cons in Hb. apply not_elem_of_cons in Hb as [Hne Hb].
    simpl. apply IH; [|done].
    destruct (Py.contains d (Label.name b)) eqn:Hc; simpl; [done|].
    rewrite setitem_fresh by done. unfold Py.keys. rewrite fmap_app. simpl.
    intros Hin. apply elem_of_app in Hin as [Hin|Hin]; [by apply Hd|].
    apply list_elem_of_singleton in Hin. congruence.
Qed.
End composer_more.

(** X15. In the label dictionary of a host the fixed labels always win: the
    value under each of the fourteen fixed names is the one taken from the
    host and its certificate, whatever custom labels are configured. A
    custom label whose name is not a fixed name gets the value of its first
    declaration. *)
Theorem fixed_labels_win
    (self : X509Metrics.t) (host : Host.t) (cert : X509.Certificate) :
  (∀ i name,
      X509Metrics.fixed_labels !! i = Some name →
      Sink.str <$> Py.getitem (X509Metrics.compose_labels self host cert) name
      = Spec.fixed_values host cert !! i)
  ∧ (∀ before l after,
        AppConfig.labels (X509Metrics.config self) = before ++ l :: after →
        Label.name l ∉ X509Metrics.fixed_labels →
        Label.name l ∉ (Label.name <$> before) →
        Py.getitem (X509Metrics.compose_labels self host cert) (Label.name l)
        = Some (Sink.VStr (Label.value l))).
Proof.
  split.
  - intros i name Hi. unfold X509Metrics.compose_labels.
    do 14 (destruct i as [|i];
           [injection Hi as <-; by erewrite custom_loop_keeps by reflexivity|]).
    discriminate Hi.
  - intros before l after Hlabels Hfixed Hbefore.
    unfold X509Metrics.compose_labels.
    by apply (custom_loop_first _ _ l before after).
Qed.

Lemma fixed_labels_win_witness :
  Sink.str <$> Py.getitem
    (X509Metrics.compose_labels Scenario.clash_collector Scenario.host_a
       Scenario.certificate) "host"
  = Some "a.example:443"
  ∧ Py.getitem
      (X509Metrics.compose_labels Scenario.collector Scenario.host_a
         Scenario.certificate) "env"
    = Some (Sink.VStr "prod").
Proof.
  split.
  - exact (proj1 (fixed_labels_win Scenario.clash_collector Scenario.host_a
                    Scenario.certificate) 0%nat "host" eq_refl).
  - apply (proj2 (fixed_labels_win Scenario.collector Scenario.host_a
                    Scenario.certificate) [] (Label.mk "env" "prod") []);
      [reflexivity | | apply not_elem_of_nil].
    apply (bool_decide_unpack _). vm_compute. exact I.
Defined.

(* ===================================================================== *)
(** * Further properties: the names of the variables                      *)
(* ===================================================================== *)

Section pattern_facts.
Implicit Types (s lit rest body prefix : string) (cls : ascii → bool).

Lemma match_literal_ci_iff lit s rest :
  Py.match_literal_ci lit s = Some rest ↔
  ∃ prefix, s = prefix +:+ rest ∧ Py.lower prefix = Py.lower lit.
Proof.
  revert s. induction lit as [|p lit IH]; intros s; simpl.
  - split.
    + intros Heq. injection Heq as ->. by exists "".
    + intros (prefix & -> & Hl). by destruct prefix.
  - destruct s as [|c s].
    + split; [done|]. intros (prefix & Hs & Hl). by destruct prefix.
    + case_decide as Hc.
      * rewrite IH. split.
        -- intros (prefix & -> & Hl). exists (String c prefix).
           split; [done|]. simpl. by rewrite Hc, Hl.
        -- intros (prefix & Hs & Hl). destruct prefix as [|c' prefix]; [done|].
           rewrite append_String in Hs. injection Hs as <- ->.
           simpl in Hl. injection Hl as _ Hl. by exists prefix.
      * split; [done|]. intros (prefix & Hs & Hl).
        destruct prefix as [|c' prefix]; [done|].
        rewrite append_String in Hs. injection Hs as <- _.
        simpl in Hl. injection Hl as Hl _. by destruct Hc.
Qed.

Lemma dollar_body_cases s :
  s = Py.dollar_body s ∨ s = Py.dollar_body s +:+ String Py.newline "".
Proof.
  induction s as [|c r IH]; [by left|].
  destruct r as [|c' r'].
  - simpl. case_decide as Hc; [right; by subst c | by left].
  - change (Py.dollar_body (String c (String c' r')))
      with (String c (Py.dollar_body (String c' r'))).
    destruct IH as [IH|IH]; [left | right];
      rewrite ?append_String; by rewrite <- IH.
Qed.

Lemma dollar_body_newline s :
  Py.dollar_body (s +:+ String Py.newline "") = s.
Proof.
  induction s as [|c r IH]; [done|].
  rewrite append_String.
  destruct (r +:+ String Py.newline "") as [|c' r'] eqn:Hr.
  - by destruct r.
  - change (Py.dollar_body (String c (String c' r')))
      with (String c (Py.dollar_body (String c' r'))).
    by rewrite IH.
Qed.

Lemma dollar_body_id cls s :
  cls Py.newline = false →
  Py.str_forallb cls s = true →
  Py.dollar_body s = s.
Proof.
  intros Hnl. induction s as [|c r IH]; [done|]. simpl.
  intros Hall. apply andb_true_iff in Hall as [Hc Hr].
  destruct r as [|c' r'].
  - case_decide; [|done]. subst c. congruence.
  - by rewrite IH.
Qed.

(** What the two patterns of the program accept, and what they capture. *)
Lemma re_match_group_iff lit cls s body :
  cls Py.newline = false →
  Py.re_match_group lit cls s = Some body ↔
  body ≠ ""
  ∧ Py.str_forallb cls body = true
  ∧ ∃ prefix,
      Py.lower prefix = Py.lower lit
      ∧ (s = prefix +:+ body ∨ s = prefix +:+ body +:+ String Py.newline "").
Proof.
  intros Hnl. unfold Py.re_match_group. split.
  - destruct (Py.match_literal_ci lit s) as [rest|] eqn:Hm; [|done].
    apply match_literal_ci_iff in Hm as (prefix & -> & Hl). simpl.
    destruct (Py.truthy (Py.dollar_body rest)) eqn:Ht; [|done]. simpl.
    destruct (Py.str_forallb cls (Py.dollar_body rest)) eqn:Hall; [|done].
    intros Hb. injection Hb as <-.
    split; [intros Heq; rewrite Heq in Ht; discriminate Ht|]. split; [done|].
    exists prefix. split; [done|].
    destruct (dollar_body_cases rest) as [Hr|Hr]; [left | right]; by rewrite <- Hr.
  - intros (Hne & Hall & prefix & Hl & Hs).
    assert (∃ rest, s = prefix +:+ rest ∧ Py.dollar_body rest = body)
      as (rest & -> & Hbody).
    { destruct Hs as [-> | ->].
      - exists body. split; [done|]. by apply (dollar_body_id cls).
      - exists (body +:+ String Py.newline ""). split; [done|].
        apply dollar_body_newline. }
    assert (Py.match_literal_ci lit (prefix +:+ rest) = Some rest) as ->
      by (apply match_literal_ci_iff; eauto).
    simpl. rewrite Hbody, Hall. by destruct body.
Qed.
End pattern_facts.

(** X16. The variables the resolver picks up. A name is a host variable
    exactly when it is [X509_CONFIG_HOST_] in any mix of cases followed by
    one or more digits; a name is a label variable, capturing [group],
    exactly when it is [X509_CONFIG_LABEL_] in any mix of cases followed by
    [group], a non-empty run of letters, digits, underscores and hyphens.
    One newline at the very end of the name is tolerated in both. *)
Theorem variable_names_accepted (env group : string) :
  (AppConfig.host_pattern env = true ↔
   ∃ prefix number,
     Py.lower prefix = "x509_config_host_"
     ∧ number ≠ ""
     ∧ Py.str_forallb Py.is_digit number = true
     ∧ (env = prefix +:+ number
        ∨ env = prefix +:+ number +:+ String Py.newline ""))
  ∧ (AppConfig.label_pattern env = Some group ↔
     ∃ prefix,
       Py.lower prefix = "x509_config_label_"
       ∧ group ≠ ""
       ∧ Py.str_forallb AppConfig.label_class group = true
       ∧ (env = prefix +:+ group
          ∨ env = prefix +:+ group +:+ String Py.newline "")).
Proof.
  split.
  - unfold AppConfig.host_pattern. rewrite bool_decide_eq_true. split.
    + intros [number Hm].
      apply re_match_group_iff in Hm as (Hne & Hall & prefix & Hl & Hs);
        [|reflexivity].
      by exists prefix, number.
    + intros (prefix & number & Hl & Hne & Hall & Hs). exists number.
      apply re_match_group_iff; [reflexivity|]. eauto.
  - unfold AppConfig.label_pattern. rewrite re_match_group_iff by reflexivity.
    split.
    + intros (Hne & Hall & prefix & Hl & Hs). by exists prefix.
    + intros (prefix & Hl & Hne & Hall & Hs). eauto.
Qed.
